(** * Katna.video: the keyframe-extraction and bulk-compression orchestrator

    A shallow embedding of [Katna/video.py] (class [Video]) and the
    properties of its chunk planner, duration probe, clip naming,
    extraction pipeline and directory-level compression.

    Conventions of the embedding.
    - Times are Python floats in the source.  In the planner and in the
      pipeline they are modelled as exact rationals ([Q]): [//] on a float
      is the floor of the exact quotient, [int(x)] truncates towards zero
      and [round(x)] rounds half to even.  The millisecond offsets of a
      clip name are products of floats, which are exact only where the
      product is a float itself (on whole seconds in particular): the
      naming is therefore also given on binary64 floats, with their own
      multiplication ([float_clipped_file_path]).
    - Text is Rocq's [string], one [ascii] per character, so the decoded
      diagnostic text ranges over the code points below 256.
    - Stateful code is written in a small state-and-exception monad over a
      [World]: the set of files on disk and the log of the calls made to
      the external tool and to the collaborators.
    - [Pool.map] hands the clips out in batches and runs every batch; a
      batch stops at its first exception.  The batches are taken one after
      the other, in the order of the clips: the results come in that
      order, and the first exception in that order is the one raised
      again (with several workers at once, which of several exceptions
      comes first is not decided by the code).
    - The [while] loop of [_split] runs on an iteration budget computed
      from the duration; the budget is shown never to be what ends it.
    - [os.walk] is the list of the [(path, files)] it yields on the disk
      it is started on. *)

From Stdlib Require Import ZArith QArith Qround Qminmax Lqa Lia Bool List.
From Stdlib Require Import Ascii String DecimalString DecimalPos DecimalZ.
From Stdlib Require Import Floats.
From stdpp Require Import gmap strings.
Import ListNotations.

Local Set Warnings "-clear-no-such-hyp".
Local Set Warnings "-inexact-float".
Set Default Proof Using "Type".

Local Open Scope Z_scope.
Local Open Scope Q_scope.

(** ** Python numbers *)

Definition Qgtb (x y : Q) : bool := negb (Qle_bool x y).
Definition Qltb (x y : Q) : bool := negb (Qle_bool y x).

(** [int(x)] for a float [x]: truncation towards zero. *)
Definition py_int (x : Q) : Z := Z.quot (Qnum x) (Z.pos (Qden x)).

(** [round(x)] for a float [x]: the nearest integer, ties to the even one. *)
Definition py_round (x : Q) : Z :=
  let f := Qfloor x in
  match Qcompare (x - inject_Z f) (1 # 2) with
  | Lt => f
  | Gt => (f + 1)%Z
  | Eq => if Z.even f then f else (f + 1)%Z
  end.

(** [str(n)] for an int [n], as [str.format] prints it. *)
Definition py_str (n : Z) : string := NilZero.string_of_int (Z.to_int n).

(** The number a binary64 float stands for: none for an infinity or a
    NaN, and [m * 2^e] with the sign for a finite float of mantissa [m] and
    exponent [e]. *)
Definition float_value (x : float) : option Q :=
  match Prim2SF x with
  | S754_zero _ => Some 0
  | S754_finite negative m e =>
      let magnitude :=
        match e with
        | Z0 => inject_Z (Z.pos m)
        | Z.pos p => inject_Z (Z.pos (m * 2 ^ p))
        | Z.neg p => Z.pos m # 2 ^ p
        end in
      Some (if negative then - magnitude else magnitude)
  | S754_infinity _ | S754_nan => None
  end.

(** [int(x)] and [round(x)] on a binary64 float: both raise on an infinity
    and on a NaN. *)
Definition float_int (x : float) : option Z :=
  option_map py_int (float_value x).

Definition float_round (x : float) : option Z :=
  option_map py_round (float_value x).

(** ** Python strings *)

(** [needle in hay] *)
Fixpoint str_in (needle hay : string) : bool :=
  String.prefix needle hay ||
  match hay with
  | EmptyString => false
  | String _ t => str_in needle t
  end.

(** The line boundaries of [str.splitlines] below code point 256:
    LF, VT, FF, CR, FS, GS, RS and NEL. *)
Definition is_linebreak (c : ascii) : bool :=
  match nat_of_ascii c with
  | 10 | 11 | 12 | 13 | 28 | 29 | 30 | 133 => true
  | _ => false
  end%nat.

(** [s.splitlines()]: CR LF is one boundary, and a final boundary opens no
    empty last line. *)
Fixpoint splitlines (s : string) : list string :=
  match s with
  | EmptyString => []
  | String c t =>
      if is_linebreak c then
        match c, t with
        | "013"%char, String "010"%char t' => EmptyString :: splitlines t'
        | _, _ => EmptyString :: splitlines t
        end
      else
        match splitlines t with
        | [] => [String c EmptyString]
        | l :: ls => String c l :: ls
        end
  end.

(** [os.path.split(p)[1]]: what follows the last slash. *)
Fixpoint path_tail (p : string) : string :=
  match p with
  | EmptyString => EmptyString
  | String c t => if str_in "/" t then path_tail t
                  else if Ascii.eqb c "/" then t else p
  end.

(** [name.split(".")[0]]: what precedes the first dot. *)
Fixpoint before_dot (name : string) : string :=
  match name with
  | EmptyString => EmptyString
  | String c t => if Ascii.eqb c "." then EmptyString else String c (before_dot t)
  end.

Fixpoint ends_with_slash (p : string) : bool :=
  match p with
  | EmptyString => false
  | String c EmptyString => Ascii.eqb c "/"
  | String _ t => ends_with_slash t
  end.

(** [os.path.join(a, b)] of [posixpath]. *)
Definition path_join (a b : string) : string :=
  if String.prefix "/" b then b
  else if String.eqb a "" || ends_with_slash a then (a ++ b)%string
  else (a ++ "/" ++ b)%string.

(** ** The timestamp pattern
    [re.findall("([0-9][0-9]:[0-9][0-9]:[0-9][0-9].[0-9][0-9])", line)]:
    the dot of the pattern stands for any character but a newline. *)

Definition is_digit (c : ascii) : bool :=
  (48 <=? nat_of_ascii c)%nat && (nat_of_ascii c <=? 57)%nat.

Definition is_colon (c : ascii) : bool := Ascii.eqb c ":".

Definition re_dot (c : ascii) : bool := negb (Ascii.eqb c "010").

(** The match of the pattern that starts at the head of [s], if any. *)
Definition match_here (s : string) : option string :=
  match s with
  | String h1 (String h2 (String c1 (String m1 (String m2 (String c2
      (String s1 (String s2 (String d (String f1 (String f2 _)))))))))) =>
      if is_digit h1 && is_digit h2 && is_colon c1 &&
         is_digit m1 && is_digit m2 && is_colon c2 &&
         is_digit s1 && is_digit s2 && re_dot d &&
         is_digit f1 && is_digit f2
      then Some (String h1 (String h2 (String c1 (String m1 (String m2
             (String c2 (String s1 (String s2 (String d (String f1
             (String f2 EmptyString)))))))))))
      else None
  | _ => None
  end.

(** [re.findall]: the matches from left to right, none overlapping; [skip]
    counts the characters of the last match still to be passed over. *)
Fixpoint findall_from (skip : nat) (s : string) : list string :=
  match s with
  | EmptyString => []
  | String _ t =>
      match skip with
      | S k => findall_from k t
      | O =>
          match match_here s with
          | Some m => m :: findall_from 10 t
          | None => findall_from 0 t
          end
      end
  end.

Definition findall (s : string) : list string := findall_from 0 s.

Definition digit_value (c : ascii) : Z := (Z.of_nat (nat_of_ascii c) - 48)%Z.

Definition two_digits (a b : ascii) : Q :=
  inject_Z (10 * digit_value a + digit_value b).

(** Modelled from the spec: [helper._convert_to_seconds] is not part of the
    sources at hand.  The spec (4.1) converts the matched timestamp "to
    seconds as hours*3600 + minutes*60 + seconds + centiseconds/100"; the
    four fields are read at their positions in the match. *)
Definition _convert_to_seconds (time : string) : option Q :=
  match time with
  | String h1 (String h2 (String _ (String m1 (String m2 (String _
      (String s1 (String s2 (String _ (String f1 (String f2 EmptyString))))))))))
    => Some (two_digits h1 h2 * 3600 + two_digits m1 m2 * 60
             + two_digits s1 s2 + two_digits f1 f2 / 100)
  | _ => None
  end.

(** ** Exceptions, outcomes and the world *)

Inductive exn : Type :=
| FileNotFoundError   (* the path-validating decorators *)
| InvalidVideo        (* Exception("Invalid or corrupted video: ...") *)
| NoSuchFile          (* IOError: "the file ... could not be found!" *)
| DurationUnreadable  (* IOError: "failed to read the duration of file ..." *)
| IndexError          (* [lines[-1]] on an empty list *)
| OSError             (* [os.remove] of a missing file *)
| ExternalToolError   (* a failed run of the media tool *)
| CollaboratorError   (* raised inside a collaborator *)
| LoopBudget.         (* model only: a loop outran its iteration budget *)

Inductive outcome (A : Type) : Type :=
| Return (a : A)
| Raise (e : exn).
Arguments Return {A} a.
Arguments Raise {A} e.

(** The arguments of [VideoCompressor.compress_video]. *)
Record CompressArgs : Type := {
  c_file_path : string;
  c_force_overwrite : bool;
  c_crf_parameter : Z;
  c_output_video_codec : string;
  c_out_dir_path : string;
  c_out_file_name : string
}.

Inductive pool_role : Type := PoolExtractor | PoolSelector.

(** What the orchestrator asks of the outside world, in the order asked. *)
Inductive Event (Frame : Type) : Type :=
| EvPool (role : pool_role) (processes : option Z)
| EvProbe (file_path : string)
| EvCut (filename : string) (t1 t2 : Q) (targetname : string)
| EvExtract (clip : string)
| EvRemove (clip : string)
| EvSelect (frames : list Frame) (no_of_frames : Z)
| EvWalk (dir_path : string)
| EvCompress (args : CompressArgs) (status : outcome bool).
Arguments EvPool {Frame} role processes.
Arguments EvProbe {Frame} file_path.
Arguments EvCut {Frame} filename t1 t2 targetname.
Arguments EvExtract {Frame} clip.
Arguments EvRemove {Frame} clip.
Arguments EvSelect {Frame} frames no_of_frames.
Arguments EvWalk {Frame} dir_path.
Arguments EvCompress {Frame} args status.

Record World (Frame : Type) : Type := {
  files : gset string;
  calls : list (Event Frame)
}.
Arguments files {Frame} w.
Arguments calls {Frame} w.
Arguments Build_World {Frame} files calls.

(** Computations that read and change the world and may raise; the world
    reached when an exception is raised is kept. *)
Definition M (Frame A : Type) : Type := World Frame -> outcome A * World Frame.

Definition ret {Frame A} (a : A) : M Frame A := fun w => (Return a, w).

Definition raise {Frame A} (e : exn) : M Frame A := fun w => (Raise e, w).

Definition bind {Frame A B} (m : M Frame A) (k : A -> M Frame B) : M Frame B :=
  fun w =>
    match m w with
    | (Return a, w') => k a w'
    | (Raise e, w') => (Raise e, w')
    end.

Definition lift {Frame A} (r : outcome A) : M Frame A := fun w => (r, w).

Definition log {Frame} (ev : Event Frame) : M Frame unit :=
  fun w => (Return tt, {| files := files w; calls := calls w ++ [ev] |}).

Notation "x <- c1 ;; c2" := (bind c1 (fun x => c2))
  (at level 100, c1 at next level, right associativity).
Notation "c1 ;; c2" := (bind c1 (fun _ => c2))
  (at level 100, right associativity).

(** ** The duration probe: the parsing of the diagnostic text
    ([_get_video_duration_with_ffmpeg], from [infos] on) *)

Definition duration_of_infos (infos : string) : outcome Q :=
  let lines := splitlines infos in
  match last lines with
  | None => Raise IndexError
  | Some l =>
      if str_in "No such file or directory" l then Raise NoSuchFile
      else
        match last (List.filter (str_in "Duration:") lines) with
        | None => Raise DurationUnreadable
        | Some line =>
            match head (findall line) with
            | None => Raise DurationUnreadable
            | Some m =>
                match _convert_to_seconds m with
                | Some video_duration => Return video_duration
                | None => Raise DurationUnreadable
                end
            end
        end
  end.

(** ** The chunk planner of [_split] *)

(** [duration // cpu_count()]: floor division of a float by an int. *)
Definition share (cpu_count : positive) (duration : Q) : Q :=
  inject_Z (Qfloor (duration / inject_Z (Z.pos cpu_count))).

(** [duration // cpu_count() if duration // cpu_count() > 15 else 25] *)
Definition break_point (cpu_count : positive) (duration : Q) : Q :=
  if Qgtb (share cpu_count duration) 15 then share cpu_count duration else 25.

(** The end of the clip that starts at [clip_start]:
    [clip_end = clip_start + break_point], replaced by [duration] when
    [clip_end > duration or clip_end + min_video_duration > duration]. *)
Definition clip_end_of (min_video_duration duration bp clip_start : Q) : Q :=
  let clip_end := clip_start + bp in
  if Qgtb clip_end duration || Qgtb (clip_end + min_video_duration) duration
  then duration else clip_end.

(** Iterations the [while] loop can need: one per break point that fits. *)
Definition split_fuel (duration bp : Q) : nat :=
  Z.to_nat (Qceiling (duration / bp)).

(** The [while clip_start < duration] loop seen as a plan: the list of the
    [(clip_start, clip_end)] pairs it hands to [_write_videofile].  [None]
    when the budget runs out before the guard fails. *)
Fixpoint split_loop (min_video_duration : Q) (fuel : nat)
    (duration bp clip_start : Q) : option (list (Q * Q)) :=
  if Qltb clip_start duration then
    match fuel with
    | O => None
    | S fuel' =>
        let clip_end := clip_end_of min_video_duration duration bp clip_start in
        option_map (cons (clip_start, clip_end))
          (split_loop min_video_duration fuel' duration bp clip_end)
    end
  else Some [].

Definition split_windows (cpu_count : positive) (min_video_duration : Q)
    (duration : Q) : list (Q * Q) :=
  let bp := break_point cpu_count duration in
  match split_loop min_video_duration (split_fuel duration bp) duration bp 0 with
  | Some ws => ws
  | None => []
  end.

(** ** Clip naming ([_write_videofile]) *)

(** The path of a clip on exact times: the offsets are [int] of the exact
    products.  It is the path the source gives whenever its float
    products [1000 * start] and [1000 * end] are exact, as they are on
    whole seconds. *)
Definition clipped_file_path (temp_folder video_file_path : string)
    (start end_ : Q) : string :=
  let name := path_tail video_file_path in
  path_join temp_folder
    (before_dot name ++ "_" ++ py_str (py_int (1000 * start)) ++ "_"
       ++ py_str (py_int (1000 * end_)) ++ ".mp4")%string.

(** The same on floats, as the source computes it: the offsets are [int]
    of the float products [1000 * start] and [1000 * end], which need not
    be the exact products.  No path where [int] raises. *)
Definition float_clipped_file_path (temp_folder video_file_path : string)
    (start end_ : float) : option string :=
  let name := path_tail video_file_path in
  match float_int (1000 * start)%float, float_int (1000 * end_)%float with
  | Some start_ms, Some end_ms =>
      Some (path_join temp_folder
              (before_dot name ++ "_" ++ py_str start_ms ++ "_"
                 ++ py_str end_ms ++ ".mp4")%string)
  | _, _ => None
  end.

(** The naming as the specification words it: the millisecond offsets are
    rounded. *)
Definition spec_clip_name (temp_folder video_file_path : string)
    (start end_ : float) : option string :=
  match float_round (start * 1000)%float, float_round (end_ * 1000)%float with
  | Some start_ms, Some end_ms =>
      Some (temp_folder ++ "/" ++ before_dot (path_tail video_file_path) ++ "_"
              ++ py_str start_ms ++ "_" ++ py_str end_ms ++ ".mp4")%string
  | _, _ => None
  end.

(** The break point as the specification words it. *)
Definition spec_break_point (workerCount : positive) (totalDuration : Q) : Q :=
  Qmax 25 (totalDuration / inject_Z (Z.pos workerCount)).

(** [plan_from minimum d bp s ws]: [ws] is a run of the [while] loop from
    [clip_start = s] on a video of [d] seconds. *)
Inductive plan_from (minimum d bp : Q) : Q -> list (Q * Q) -> Prop :=
| plan_done s : d <= s -> plan_from minimum d bp s []
| plan_cons s e rest :
    s < d -> s < e -> e <= d ->
    (e = d \/ (e = s + bp /\ e + minimum <= d)) ->
    plan_from minimum d bp e rest ->
    plan_from minimum d bp s ((s, e) :: rest).

(** The eleven characters of a timestamp: hours, minutes, seconds, the
    character the pattern's dot stands for, hundredths. *)
Definition timestamp (h1 h2 m1 m2 s1 s2 d f1 f2 : ascii) : string :=
  String h1 (String h2 (String ":" (String m1 (String m2 (String ":"
    (String s1 (String s2 (String d (String f1 (String f2 EmptyString)))))))))).

Definition timestamp_chars (h1 h2 m1 m2 s1 s2 d f1 f2 : ascii) : bool :=
  is_digit h1 && is_digit h2 && is_digit m1 && is_digit m2 &&
  is_digit s1 && is_digit s2 && re_dot d && is_digit f1 && is_digit f2.

(** No match of the pattern starts inside [before], which precedes [rest]. *)
Fixpoint no_match_before (before rest : string) : bool :=
  match before with
  | EmptyString => true
  | String _ before' =>
      match match_here (before ++ rest) with
      | Some _ => false
      | None => no_match_before before' rest
      end
  end.

(** A diagnostic text with two duration lines. *)
Definition two_durations : string :=
  ("Input #0, mov,mp4, from 'a.mp4':" ++ String "010"
   "  Duration: 00:00:10.00, start: 0.000000, bitrate: 512 kb/s" ++ String "010"
   "Output #0, null, to 'pipe:':" ++ String "010"
   "  Duration: 00:01:30.50, start: 0.000000, bitrate: 128 kb/s" ++ String "010"
   "video:0kB audio:0kB" ++ String "010" "")%string.

(** The timestamp as the specification words it, [HH:MM:SS.ss]: a match of
    the pattern whose character before the hundredths is a dot; and the
    first such timestamp of a line. *)
Definition spec_is_timestamp (m : string) : bool :=
  match String.get 8 m with
  | Some d => Ascii.eqb d "."
  | None => false
  end.

Fixpoint spec_first_timestamp (line : string) : option string :=
  match line with
  | EmptyString => None
  | String _ t =>
      match match_here line with
      | Some m => if spec_is_timestamp m then Some m else spec_first_timestamp t
      | None => spec_first_timestamp t
      end
  end.

(** A duration line on which the pattern matches before the timestamp. *)
Definition duration_after_junk : string :=
  " Duration: 12:34:56x78 00:01:30.50".

(** ** class [Video] *)

Section Video.

(** In-memory images. *)
Variable Frame : Type.

(** [multiprocessing.cpu_count()], [config.Video.min_video_duration] and
    [self.temp_folder], the absolute path of the folder ["clipped"]. *)
Variable cpu_count : positive.
Variable min_video_duration : Q.
Variable temp_folder : string.

(** [helper._check_if_valid_video] *)
Variable check_if_valid_video : string -> bool.

(** The media tool run on a file with null output: its error stream,
    decoded, unless the run itself fails. *)
Variable ffmpeg_info : string -> outcome string.

(** The media tool cutting [filename] from [t1] to [t2] into [targetname]:
    did the run succeed? *)
Variable ffmpeg_cut : string -> Q -> Q -> string -> bool.

(** [FrameExtractor.extract_candidate_frames] and
    [ImageSelector.select_best_frames] *)
Variable extract_candidate_frames : string -> outcome (list Frame).
Variable select_best_frames : list Frame -> Z -> outcome (list Frame).

(** [VideoCompressor.compress_video]: its status or exception, and the
    files on disk once it is over. *)
Variable video_compressor :
  CompressArgs -> gset string -> outcome bool * gset string.

(** [os.path.isdir] and [os.walk], the latter as the list of the
    [(path, files)] it yields. *)
Variable os_path_isdir : gset string -> string -> bool.
Variable os_walk : gset string -> string -> list (string * list string).

(** Modelled from the spec: [Katna.decorators.FileDecorators] is not part
    of the sources at hand.  The spec has the parameters "validated at
    acceptance time (existence of source ...)" and a [NotFoundError] for a
    "source file absent": the decorated body runs only on an existing
    path. *)
Definition validate_file_path {A} (file_path : string) (body : M Frame A)
    : M Frame A :=
  fun w =>
    if bool_decide (file_path ∈ files w) then body w
    else (Raise FileNotFoundError, w).

Definition validate_dir_path {A} (dir_path : string) (body : M Frame A)
    : M Frame A :=
  fun w =>
    if os_path_isdir (files w) dir_path then body w
    else (Raise FileNotFoundError, w).

(** [__init__]: [cpu_count() // 2 - 1], and [None] when that is below 1. *)
Definition n_processes : option Z :=
  let n := (Z.pos cpu_count / 2 - 1)%Z in
  if (n <? 1)%Z then None else Some n.

(** [os.remove]: an [OSError] on a path that is not on disk. *)
Definition os_remove (path : string) : M Frame unit :=
  fun w =>
    if bool_decide (path ∈ files w)
    then (Return tt,
          {| files := files w ∖ {[path]}; calls := calls w ++ [EvRemove path] |})
    else (Raise OSError,
          {| files := files w; calls := calls w ++ [EvRemove path] |}).

(** [_remove_clips]: an [OSError] of [os.remove] is printed and dropped. *)
Fixpoint _remove_clips (video_clips : list string) : M Frame unit :=
  match video_clips with
  | [] => ret tt
  | clip :: rest =>
      fun w =>
        match os_remove clip w with
        | (Raise OSError, w') => _remove_clips rest w'
        | (Return _, w') => _remove_clips rest w'
        | (Raise e, w') => (Raise e, w')
        end
  end.

(** [_get_video_duration_with_ffmpeg] *)
Definition _get_video_duration_with_ffmpeg (file_path : string) : M Frame Q :=
  validate_file_path file_path (
    log (EvProbe file_path) ;;
    infos <- lift (ffmpeg_info file_path) ;;
    lift (duration_of_infos infos)).

(** [_ffmpeg_extract_subclip], always called with a [targetname]: a
    successful run leaves the clip on disk. *)
Definition _ffmpeg_extract_subclip (filename : string) (t1 t2 : Q)
    (targetname : string) : M Frame unit :=
  log (EvCut filename t1 t2 targetname) ;;
  fun w =>
    if ffmpeg_cut filename t1 t2 targetname
    then (Return tt, {| files := files w ∪ {[targetname]}; calls := calls w |})
    else (Raise ExternalToolError, w).

(** [_write_videofile] *)
Definition _write_videofile (video_file_path : string) (start end_ : Q)
    : M Frame string :=
  let _clipped_file_path :=
    clipped_file_path temp_folder video_file_path start end_ in
  _ffmpeg_extract_subclip video_file_path start end_ _clipped_file_path ;;
  ret _clipped_file_path.

(** The [while] loop of [_split]. *)
Fixpoint split_while (fuel : nat) (file_path : string)
    (duration break_point clip_start : Q) (clipped_files : list string)
    : M Frame (list string) :=
  if Qltb clip_start duration then
    match fuel with
    | O => raise LoopBudget
    | S fuel' =>
        let clip_end :=
          clip_end_of min_video_duration duration break_point clip_start in
        clip <- _write_videofile file_path clip_start clip_end ;;
        split_while fuel' file_path duration break_point clip_end
          (clipped_files ++ [clip])
    end
  else ret clipped_files.

(** [_split] *)
Definition _split (file_path : string) : M Frame (list string) :=
  validate_file_path file_path (
    duration <- _get_video_duration_with_ffmpeg file_path ;;
    let bp := break_point cpu_count duration in
    split_while (split_fuel duration bp) file_path duration bp 0 []).

(** [Pool(processes=self.n_processes)]: the number of workers, which is
    [os.cpu_count()] when [processes] is [None]. *)
Definition pool_workers : nat :=
  match n_processes with
  | Some n => Z.to_nat n
  | None => Pos.to_nat cpu_count
  end.

(** The [chunksize] [Pool.map] gives itself for [n] tasks:
    [chunksize, extra = divmod(n, len(self._pool) * 4)], and one more
    when [extra] is not zero. *)
Definition map_chunksize (n : nat) : nat :=
  let chunksize := (n / (pool_workers * 4))%nat in
  if (n mod (pool_workers * 4) =? 0)%nat then chunksize else S chunksize.

(** The tasks of [Pool.map]: the clips are handed out in batches of
    [chunksize] consecutive clips, and a worker maps the function over its
    batch, so the exception of a clip ends its batch and the clips after
    it in the batch are not run; every batch is run.  [left] counts the
    clips the running batch can still take, [failed] tells whether it has
    raised.  A clip that is not run has no result. *)
Fixpoint run_batches (chunksize left : nat) (failed : bool)
    (clips : list string) : M Frame (list (option (outcome (list Frame)))) :=
  match clips with
  | [] => ret []
  | clip :: rest =>
      let left' := match left with O => chunksize | _ => left end in
      let failed' := match left with O => false | _ => failed end in
      if failed' then
        others <- run_batches chunksize (pred left') true rest ;;
        ret (None :: others)
      else
        log (EvExtract clip) ;;
        let result := extract_candidate_frames clip in
        others <- run_batches chunksize (pred left')
                    (match result with Raise _ => true | Return _ => false end)
                    rest ;;
        ret (Some result :: others)
  end.

(** What [map] hands back once every batch is over: the values in the
    order of the clips, or the exception of the first batch that raised. *)
Fixpoint map_result (results : list (option (outcome (list Frame))))
    : outcome (list (list Frame)) :=
  match results with
  | [] => Return []
  | Some (Raise e) :: _ => Raise e
  | Some (Return frames) :: rest =>
      match map_result rest with
      | Return others => Return (frames :: others)
      | Raise e => Raise e
      end
  | None :: rest => map_result rest
  end.

(** [pool_extractor.map(frame_extractor.extract_candidate_frames, clips)] *)
Definition pool_map (clips : list string) : M Frame (list (list Frame)) :=
  results <- run_batches (map_chunksize (length clips)) 0 false clips ;;
  lift (map_result results).

(** [extract_video_keyframes] *)
Definition extract_video_keyframes (no_of_frames : Z) (file_path : string)
    : M Frame (list Frame) :=
  validate_file_path file_path (
    log (EvPool PoolExtractor n_processes) ;;
    log (EvPool PoolSelector n_processes) ;;
    if negb (check_if_valid_video file_path) then raise InvalidVideo
    else
      chunked_videos <- _split file_path ;;
      nested <- pool_map chunked_videos ;;
      let extracted_candidate_frames := concat nested in
      _remove_clips chunked_videos ;;
      log (EvSelect extracted_candidate_frames no_of_frames) ;;
      lift (select_best_frames extracted_candidate_frames no_of_frames)).

(** [compress_video] *)
Definition compress_video (file_path : string) (force_overwrite : bool)
    (crf_parameter : Z) (output_video_codec out_dir_path out_file_name : string)
    : M Frame bool :=
  validate_file_path file_path (
    if negb (check_if_valid_video file_path) then raise InvalidVideo
    else
      fun w =>
        let args := {| c_file_path := file_path;
                       c_force_overwrite := force_overwrite;
                       c_crf_parameter := crf_parameter;
                       c_output_video_codec := output_video_codec;
                       c_out_dir_path := out_dir_path;
                       c_out_file_name := out_file_name |} in
        let (status, disk) := video_compressor args (files w) in
        (status,
         {| files := disk; calls := calls w ++ [EvCompress args status] |})).

(** First loop of [compress_videos_from_dir]: the valid videos of a walk. *)
Definition videos_of_walk (walk : list (string * list string)) : list string :=
  flat_map
    (fun '(path, filenames) =>
       List.filter check_if_valid_video (map (path_join path) filenames))
    walk.

(** Second loop of [compress_videos_from_dir]; [out_file_name] is not
    passed on, so [compress_video] takes its default, the empty string. *)
Fixpoint compress_each (videos : list string) (force_overwrite : bool)
    (crf_parameter : Z) (output_video_codec out_dir_path : string)
    (status : bool) : M Frame bool :=
  match videos with
  | [] => ret status
  | video_file_path :: rest =>
      statusI <- compress_video video_file_path force_overwrite crf_parameter
                   output_video_codec out_dir_path "" ;;
      compress_each rest force_overwrite crf_parameter output_video_codec
        out_dir_path (status && statusI)
  end.

(** [compress_videos_from_dir] *)
Definition compress_videos_from_dir (dir_path : string) (force_overwrite : bool)
    (crf_parameter : Z) (output_video_codec out_dir_path out_file_name : string)
    : M Frame bool :=
  validate_dir_path dir_path (
    log (EvWalk dir_path) ;;
    fun w =>
      let list_of_videos_to_process :=
        videos_of_walk (os_walk (files w) dir_path) in
      compress_each list_of_videos_to_process force_overwrite crf_parameter
        output_video_codec out_dir_path true w).

(** *** Vocabulary for the statements below *)

(** The clip written for each window of a plan, and the cuts asked of the
    media tool for them. *)
Definition clip_of (file_path : string) (w : Q * Q) : string :=
  clipped_file_path temp_folder file_path (fst w) (snd w).

Definition cut_of (file_path : string) (w : Q * Q) : Event Frame :=
  EvCut file_path (fst w) (snd w) (clip_of file_path w).

Definition cut_succeeds (file_path : string) (w : Q * Q) : bool :=
  ffmpeg_cut file_path (fst w) (snd w) (clip_of file_path w).

(** Does the extraction collaborator return on a clip, and with what? *)
Definition extraction_returns (clip : string) : bool :=
  match extract_candidate_frames clip with
  | Return _ => true
  | Raise _ => false
  end.

Definition frames_of (clip : string) : list Frame :=
  match extract_candidate_frames clip with
  | Return frames => frames
  | Raise _ => []
  end.

(** The arguments [compress_videos_from_dir] gives the compressor for one
    video: the output file name is always the default. *)
Definition dir_args (force_overwrite : bool) (crf_parameter : Z)
    (output_video_codec out_dir_path : string) (video_file_path : string)
    : CompressArgs :=
  {| c_file_path := video_file_path;
     c_force_overwrite := force_overwrite;
     c_crf_parameter := crf_parameter;
     c_output_video_codec := output_video_codec;
     c_out_dir_path := out_dir_path;
     c_out_file_name := "" |}.

Definition is_compress_default_name (ev : Event Frame) : Prop :=
  match ev with
  | EvCompress args _ => c_out_file_name args = EmptyString
  | _ => True
  end.

(** [logs P m]: whatever the world, [m] only appends calls to the log, and
    each appended call satisfies [P]. *)
Definition logs {A} (P : Event Frame -> Prop) (m : M Frame A) : Prop :=
  forall w, exists l, calls (snd (m w)) = calls w ++ l /\ Forall P l.

(** *** Collaborators and worlds for the examples *)

Definition demo_info (file_path : string) : outcome string :=
  Return two_durations.

Definition demo_cut (filename : string) (t1 t2 : Q) (targetname : string)
    : bool := true.

Definition demo_extract (clip : string) : outcome (list nat) :=
  Return [String.length clip].

Definition demo_extract_failing (clip : string) : outcome (list nat) :=
  if String.eqb clip "/work/clipped/a_22000_44000.mp4"
  then Raise CollaboratorError
  else Return [String.length clip].

Definition demo_select (frames : list nat) (no_of_frames : Z)
    : outcome (list nat) :=
  Return (take (Z.to_nat no_of_frames) frames).

Definition demo_valid (path : string) : bool := str_in ".mp4" path.


Definition demo_compressor (args : CompressArgs) (disk : gset string)
    : outcome bool * gset string :=
  (Return (negb (String.eqb (c_file_path args) "/videos/b.mp4")), disk).

Definition demo_isdir (disk : gset string) (dir_path : string) : bool :=
  String.eqb dir_path "/videos".

Definition demo_walk (disk : gset string) (dir_path : string)
    : list (string * list string) :=
  [("/videos", ["a.mp4"; "b.mp4"; "notes.txt"]); ("/videos/old", ["c.mp4"])].

Definition demo_world : World nat :=
  {| files := {["/videos/a.mp4"]} ∪ {["/videos/b.mp4"]}
              ∪ {["/videos/notes.txt"]} ∪ {["/videos/old/c.mp4"]};
     calls := [] |}.

(** A media tool that fails on the cut that starts at 44 seconds, and a
    compressor that raises on the second video. *)
Definition demo_cut_failing (filename : string) (t1 t2 : Q)
    (targetname : string) : bool :=
  negb (Qeq_bool t1 44).

Definition demo_compressor_raising (args : CompressArgs) (disk : gset string)
    : outcome bool * gset string :=
  if String.eqb (c_file_path args) "/videos/b.mp4"
  then (Raise CollaboratorError, disk)
  else (Return true, disk).

(** *** The directory-level extraction *)

(** The videos [extract_keyframes_from_videos_dir] meets in a walk: the
    validity check is made on the bare file name, and the path handed on
    is the name joined to its directory. *)
Definition named_videos_of_walk (walk : list (string * list string))
    : list string :=
  flat_map
    (fun '(path, filenames) =>
       map (path_join path) (List.filter check_if_valid_video filenames))
    walk.

(** The body of the two nested loops, on the videos met:
    [all_videos_top_frames[filepath] = video_top_frames]. *)
Fixpoint extract_each (videos : list string) (no_of_frames : Z)
    (all_videos_top_frames : gmap string (list Frame))
    : M Frame (gmap string (list Frame)) :=
  match videos with
  | [] => ret all_videos_top_frames
  | video_file_path :: rest =>
      video_top_frames <- extract_video_keyframes no_of_frames video_file_path ;;
      extract_each rest no_of_frames
        (<[video_file_path := video_top_frames]> all_videos_top_frames)
  end.

(** [extract_keyframes_from_videos_dir]; [os.walk] is taken as the list it
    yields on the disk the call starts from. *)
Definition extract_keyframes_from_videos_dir (no_of_frames : Z)
    (dir_path : string) : M Frame (gmap string (list Frame)) :=
  validate_dir_path dir_path (
    log (EvWalk dir_path) ;;
    fun w =>
      extract_each (named_videos_of_walk (os_walk (files w) dir_path))
        no_of_frames ∅ w).

(** *** More vocabulary *)

(** The file name [_write_videofile] formats for a clip. *)
Definition clip_file_name (video_file_path : string) (start end_ : Q)
    : string :=
  (before_dot (path_tail video_file_path) ++ "_"
     ++ py_str (py_int (1000 * start)) ++ "_"
     ++ py_str (py_int (1000 * end_)) ++ ".mp4")%string.

(** [changes_only P Q m]: whatever the world, a path is on disk after [m]
    exactly if it was before, unless it satisfies [P]; and what [m]
    returns satisfies [Q]. *)
Definition changes_only {A} (P : string -> Prop) (Q : A -> Prop)
    (m : M Frame A) : Prop :=
  forall w,
    (forall p, (p ∈ files (snd (m w)) <-> p ∈ files w) \/ P p)
    /\ (forall a, fst (m w) = Return a -> Q a).

(** The paths [_write_videofile] can give a clip of [file_path]. *)
Definition is_clip_of (file_path : string) (p : string) : Prop :=
  exists start end_, p = clipped_file_path temp_folder file_path start end_.

Definition is_pool_or_probe (ev : Event Frame) : Prop :=
  match ev with
  | EvPool _ _ | EvProbe _ => True
  | _ => False
  end.

(** The calls [compress_videos_from_dir] logs for the first [n] videos of
    a list, with their statuses. *)
Definition compress_calls (force_overwrite : bool) (crf_parameter : Z)
    (output_video_codec out_dir_path : string) (videos : list string)
    (statuses : list bool) : list (Event Frame) :=
  map (fun vs => EvCompress
                   (dir_args force_overwrite crf_parameter output_video_codec
                      out_dir_path (fst vs))
                   (Return (snd vs)))
    (zip videos statuses).

(** * Properties *)

(** ** Comparisons *)

Lemma Qgtb_true x y : Qgtb x y = true <-> y < x.
Proof.
  unfold Qgtb. rewrite negb_true_iff, <- not_true_iff_false, Qle_bool_iff.
  split; [apply Qnot_le_lt | apply Qlt_not_le].
Qed.

Lemma Qgtb_false x y : Qgtb x y = false <-> x <= y.
Proof. unfold Qgtb. rewrite negb_false_iff. apply Qle_bool_iff. Qed.

Lemma Qltb_true x y : Qltb x y = true <-> x < y.
Proof. unfold Qltb. apply (Qgtb_true y x). Qed.

Lemma Qltb_false x y : Qltb x y = false <-> y <= x.
Proof. unfold Qltb. apply (Qgtb_false y x). Qed.

(** ** The chunk planner *)

Lemma break_point_cases cpus duration :
  (break_point cpus duration = share cpus duration /\ 15 < share cpus duration)
  \/ (break_point cpus duration = 25 /\ share cpus duration <= 15).
Proof.
  unfold break_point.
  destruct (Qgtb (share cpus duration) 15) eqn:E.
  - left. split; [reflexivity | now apply Qgtb_true].
  - right. split; [reflexivity | now apply Qgtb_false].
Qed.

Lemma break_point_gt_15 cpus duration : 15 < break_point cpus duration.
Proof.
  destruct (break_point_cases cpus duration) as [[-> H] | [-> _]]; lra.
Qed.

Lemma share_floor cpus duration :
  share cpus duration <= duration / inject_Z (Z.pos cpus)
  /\ duration / inject_Z (Z.pos cpus) < share cpus duration + 1.
Proof.
  unfold share. split.
  - apply Qfloor_le.
  - pose proof (Qlt_floor (duration / inject_Z (Z.pos cpus))) as H.
    rewrite inject_Z_plus in H. exact H.
Qed.

Lemma clip_end_of_cases minimum d bp s :
  0 < bp -> s < d ->
  let e := clip_end_of minimum d bp s in
  s < e /\ e <= d /\ (e = d \/ (e = s + bp /\ e + minimum <= d)).
Proof.
  intros Hbp Hs. unfold clip_end_of. cbv zeta.
  destruct (Qgtb (s + bp) d) eqn:E1; simpl.
  - repeat split; [lra | lra | now left].
  - destruct (Qgtb (s + bp + minimum) d) eqn:E2.
    + repeat split; [lra | lra | now left].
    + apply Qgtb_false in E1, E2. repeat split; [lra | lra |].
      right. split; [reflexivity | lra].
Qed.

Lemma split_loop_plan minimum d bp fuel : forall s ws,
  0 < bp -> split_loop minimum fuel d bp s = Some ws ->
  plan_from minimum d bp s ws.
Proof.
  induction fuel as [|fuel IH]; intros s ws Hbp; simpl.
  - destruct (Qltb s d) eqn:E; [discriminate|].
    intros [= <-]. constructor. now apply Qltb_false.
  - destruct (Qltb s d) eqn:E.
    + apply Qltb_true in E.
      destruct (split_loop minimum fuel d bp (clip_end_of minimum d bp s))
        as [rest|] eqn:R; [|discriminate].
      intros [= <-].
      destruct (clip_end_of_cases minimum d bp s Hbp E) as (H1 & H2 & H3).
      constructor; auto.
    + intros [= <-]. constructor. now apply Qltb_false.
Qed.

(** The budget is enough: the loop leaves through its guard. *)
Lemma split_loop_fuel minimum d bp fuel : forall s,
  0 < bp -> d - s <= inject_Z (Z.of_nat fuel) * bp ->
  exists ws, split_loop minimum fuel d bp s = Some ws.
Proof.
  induction fuel as [|fuel IH]; intros s Hbp Hf; simpl.
  - destruct (Qltb s d) eqn:E; [|eauto].
    apply Qltb_true in E.
    change (inject_Z (Z.of_nat 0)) with 0 in Hf. lra.
  - destruct (Qltb s d) eqn:E; [|eauto].
    apply Qltb_true in E.
    destruct (clip_end_of_cases minimum d bp s Hbp E) as (H1 & H2 & H3).
    destruct (IH (clip_end_of minimum d bp s) Hbp) as [rest ->];
      [|simpl; eauto].
    assert (Hpos : 0 <= inject_Z (Z.of_nat fuel)).
    { change 0 with (inject_Z 0). rewrite <- Zle_Qle. lia. }
    assert (Hs : inject_Z (Z.of_nat (S fuel)) == inject_Z (Z.of_nat fuel) + 1).
    { rewrite Nat2Z.inj_succ. unfold Z.succ. rewrite inject_Z_plus. reflexivity. }
    rewrite Hs in Hf.
    assert (Hprod : 0 <= inject_Z (Z.of_nat fuel) * bp)
      by (apply Qmult_le_0_compat; lra).
    destruct H3 as [-> | [-> _]]; lra.
Qed.

Lemma split_fuel_enough d bp :
  0 < bp -> d - 0 <= inject_Z (Z.of_nat (split_fuel d bp)) * bp.
Proof.
  intros Hbp. unfold split_fuel.
  destruct (Qlt_le_dec 0 d) as [Hd | Hd].
  - assert (Hq : 0 < d / bp) by (apply Qlt_shift_div_l; lra).
    pose proof (Qle_ceiling (d / bp)) as Hc.
    assert (Hz : (0 <= Qceiling (d / bp))%Z).
    { rewrite Zle_Qle. change (inject_Z 0) with 0. lra. }
    rewrite Z2Nat.id by exact Hz.
    assert (Hm : d == d / bp * bp) by (field; lra).
    assert (d / bp * bp <= inject_Z (Qceiling (d / bp)) * bp)
      by (apply Qmult_le_compat_r; lra).
    lra.
  - assert (0 <= inject_Z (Z.of_nat (Z.to_nat (Qceiling (d / bp))))).
    { change 0 with (inject_Z 0). rewrite <- Zle_Qle. lia. }
    assert (0 <= inject_Z (Z.of_nat (Z.to_nat (Qceiling (d / bp)))) * bp)
      by (apply Qmult_le_0_compat; lra).
    lra.
Qed.

(** The planner always produces its plan through the loop's guard. *)
Lemma split_windows_plan cpus minimum duration :
  split_loop minimum (split_fuel duration (break_point cpus duration))
    duration (break_point cpus duration) 0
  = Some (split_windows cpus minimum duration)
  /\ plan_from minimum duration (break_point cpus duration) 0
       (split_windows cpus minimum duration).
Proof.
  pose proof (break_point_gt_15 cpus duration) as Hbp.
  assert (Hbp0 : 0 < break_point cpus duration) by lra.
  destruct (split_loop_fuel minimum duration _ _ 0 Hbp0
              (split_fuel_enough duration _ Hbp0)) as [ws Hws].
  unfold split_windows. cbv zeta. rewrite Hws. split; [reflexivity|].
  eapply split_loop_plan; eauto.
Qed.

Lemma plan_from_bounds minimum d bp s ws :
  plan_from minimum d bp s ws ->
  Forall (fun w => s <= fst w /\ fst w < snd w /\ snd w <= d) ws.
Proof.
  induction 1 as [s Hs | s e rest Hsd Hse Hed Hor Hrest IH].
  - constructor.
  - constructor.
    + simpl. repeat split; [lra | assumption | assumption].
    + eapply Forall_impl; [exact IH|].
      simpl. intros w (H1 & H2 & H3). repeat split; [lra | assumption | assumption].
Qed.

Lemma plan_from_head minimum d bp s ws w :
  plan_from minimum d bp s ws -> head ws = Some w -> fst w = s /\ s < d.
Proof. destruct 1; simpl; [discriminate|]. intros [= <-]. now split. Qed.

Lemma plan_from_contiguous minimum d bp s ws :
  plan_from minimum d bp s ws ->
  forall (i : nat) a b, ws !! i = Some a -> ws !! S i = Some b -> snd a = fst b.
Proof.
  induction 1 as [s Hs | s e rest Hsd Hse Hed Hor Hrest IH]; intros i a b Ha Hb.
  - discriminate.
  - destruct i as [|i]; simpl in Ha, Hb.
    + injection Ha as <-. simpl.
      symmetry. eapply plan_from_head; [exact Hrest|].
      destruct rest; [discriminate | exact Hb].
    + eapply IH; eauto.
Qed.

Lemma plan_from_disjoint minimum d bp s ws :
  plan_from minimum d bp s ws ->
  forall (i j : nat) a b,
    (i < j)%nat -> ws !! i = Some a -> ws !! j = Some b -> snd a <= fst b.
Proof.
  induction 1 as [s Hs | s e rest Hsd Hse Hed Hor Hrest IH];
    intros i j a b Hij Ha Hb.
  - discriminate.
  - destruct j as [|j]; [lia|]. simpl in Hb.
    destruct i as [|i]; simpl in Ha.
    + injection Ha as <-. simpl.
      pose proof (plan_from_bounds _ _ _ _ _ Hrest) as HF.
      rewrite Forall_forall in HF.
      apply HF. eapply list_elem_of_lookup_2; eauto.
    + eapply IH; [|exact Ha|exact Hb]. lia.
Qed.

Lemma plan_from_last minimum d bp s ws s' e' :
  plan_from minimum d bp s ws -> last ws = Some (s', e') ->
  e' == d /\ ((1 < length ws)%nat -> minimum <= e' - s').
Proof.
  induction 1 as [s Hs | s e rest Hsd Hse Hed Hor Hrest IH]; intros Hl.
  - discriminate.
  - destruct rest as [|[s2 e2] rest'].
    + simpl in Hl. injection Hl as <- <-.
      inversion Hrest; subst. split; [lra | simpl; lia].
    + change (last ((s, e) :: (s2, e2) :: rest')) with (last ((s2, e2) :: rest')) in Hl.
      destruct (IH Hl) as [He' Hmin]. split; [exact He'|]. intros _.
      destruct rest' as [|w rest''].
      * simpl in Hl. injection Hl as <- <-.
        inversion Hrest; subst.
        destruct Hor as [-> | [_ Hor]]; lra.
      * apply Hmin. simpl. lia.
Qed.

(** C2 (amended).  The break point of the chunk planner is the floor of the
    per-worker share [duration / cpu_count] whenever that floor exceeds 15
    seconds, and 25 seconds otherwise; so every targeted window is longer
    than 15 seconds.  With a duration of 100 seconds on 4 execution units
    and a minimum clip duration of 5 the break point is 25 and the windows
    are [0,25) [25,50) [50,75) [75,100). *)
Theorem break_point_policy (duration : Q) :
  let s := share cpu_count duration in
  let bp := break_point cpu_count duration in
  (s <= duration / inject_Z (Z.pos cpu_count)
   /\ duration / inject_Z (Z.pos cpu_count) < s + 1)
  /\ ((bp = s /\ 15 < s) \/ (bp = 25 /\ s <= 15))
  /\ 15 < bp
  /\ break_point 4 100 = 25
  /\ split_windows 4 5 100 = [(0, 25); (25, 50); (50, 75); (75, 100)].
Proof.
  cbv zeta. split; [apply share_floor|].
  split; [apply break_point_cases|].
  split; [apply break_point_gt_15|].
  split; reflexivity.
Qed.

(** C3 (amended).  For every duration above zero the windows planned by
    [_split] start at 0, end at the duration, are contiguous and do not
    overlap, each satisfies [0 <= start < end <= duration], the last one is
    not shorter than the minimum clip duration unless it is the only one,
    and a duration within one break point gives a single window over the
    whole video. *)
Theorem split_windows_partition (duration : Q) :
  0 < duration ->
  let ws := split_windows cpu_count min_video_duration duration in
  (exists e rest, ws = (0, e) :: rest)
  /\ (exists s e, last ws = Some (s, e) /\ e == duration
        /\ ((1 < length ws)%nat -> min_video_duration <= e - s))
  /\ (forall (i : nat) a b,
        ws !! i = Some a -> ws !! S i = Some b -> snd a = fst b)
  /\ (forall (i j : nat) a b,
        (i < j)%nat -> ws !! i = Some a -> ws !! j = Some b -> snd a <= fst b)
  /\ Forall (fun w => 0 <= fst w /\ fst w < snd w /\ snd w <= duration) ws
  /\ (duration <= break_point cpu_count duration ->
      exists e, ws = [(0, e)] /\ e == duration).
Proof.
  intros Hd. cbv zeta.
  destruct (split_windows_plan cpu_count min_video_duration duration)
    as [Hrun Hplan].
  pose proof (break_point_gt_15 cpu_count duration) as Hbp.
  set (bp := break_point cpu_count duration) in *.
  set (ws := split_windows cpu_count min_video_duration duration) in *.
  assert (Hhead : exists e rest, ws = (0, e) :: rest
            /\ e = clip_end_of min_video_duration duration bp 0).
  { destruct (split_fuel duration bp) as [|fuel]; simpl in Hrun.
    - destruct (Qltb 0 duration) eqn:E; [discriminate|].
      apply Qltb_false in E. lra.
    - destruct (Qltb 0 duration) eqn:E.
      + destruct (split_loop min_video_duration fuel duration bp
                    (clip_end_of min_video_duration duration bp 0))
          as [rest|]; [|discriminate].
        injection Hrun as <-. eauto.
      + apply Qltb_false in E. lra. }
  destruct Hhead as (e0 & rest & Hws & He0).
  split; [eauto|].
  split.
  { destruct (last ws) as [[s e]|] eqn:Hl.
    - exists s, e. split; [reflexivity|].
      eapply plan_from_last; eauto.
    - rewrite Hws in Hl. apply last_None in Hl. discriminate. }
  split; [eapply plan_from_contiguous; eauto|].
  split; [eapply plan_from_disjoint; eauto|].
  split; [eapply plan_from_bounds; eauto|].
  intros Hle. exists e0.
  assert (He : e0 == duration).
  { assert (H0 : 0 < bp) by lra.
    destruct (clip_end_of_cases min_video_duration duration bp 0 H0 Hd)
      as (_ & H2 & H3).
    rewrite <- He0 in H2, H3.
    destruct H3 as [-> | [-> _]]; [reflexivity | lra]. }
  split; [|exact He].
  rewrite Hws in Hplan. rewrite Hws.
  inversion Hplan as [|? ? ? _ _ _ _ Hrest]; subst.
  inversion Hrest; subst; [reflexivity | lra].
Qed.

(** ** The duration probe *)

Lemma last_filter_marker (f : string -> bool) pre line post :
  f line = true -> forallb (fun l => negb (f l)) post = true ->
  last (List.filter f (pre ++ line :: post)) = Some line.
Proof.
  intros Hline Hpost.
  rewrite List.filter_app. simpl. rewrite Hline.
  assert (Hnil : List.filter f post = []).
  { induction post as [|l post IH]; [reflexivity|].
    simpl in Hpost. apply andb_true_iff in Hpost as [Hl Hpost].
    apply negb_true_iff in Hl. simpl. rewrite Hl. now apply IH. }
  rewrite Hnil. apply last_snoc.
Qed.

Lemma match_here_timestamp h1 h2 m1 m2 s1 s2 d f1 f2 rest :
  timestamp_chars h1 h2 m1 m2 s1 s2 d f1 f2 = true ->
  match_here (timestamp h1 h2 m1 m2 s1 s2 d f1 f2 ++ rest)
  = Some (timestamp h1 h2 m1 m2 s1 s2 d f1 f2).
Proof.
  unfold timestamp_chars. intros H.
  do 8 (apply andb_true_iff in H as [H ?]).
  unfold timestamp. simpl. unfold is_colon. simpl.
  repeat match goal with Hd : _ = true |- _ => rewrite Hd; clear Hd end.
  reflexivity.
Qed.

Lemma findall_from_0 c t :
  findall_from 0 (String c t)
  = match match_here (String c t) with
    | Some m => m :: findall_from 10 t
    | None => findall_from 0 t
    end.
Proof. reflexivity. Qed.

Lemma findall_first before rest m :
  match_here rest = Some m -> no_match_before before rest = true ->
  head (findall (before ++ rest)) = Some m.
Proof.
  intros Hm. unfold findall.
  induction before as [|c before IH]; intros Hno.
  - change (EmptyString ++ rest)%string with rest.
    destruct rest as [|c rest]; [discriminate|].
    rewrite findall_from_0, Hm. reflexivity.
  - change (String c before ++ rest)%string
      with (String c (before ++ rest)%string).
    rewrite findall_from_0.
    change (String c (before ++ rest)%string)
      with (String c before ++ rest)%string.
    cbn [no_match_before] in Hno.
    destruct (match_here (String c before ++ rest)); [discriminate|].
    now apply IH.
Qed.

(** C4 (amended).  The duration is read from the last line of the
    diagnostic text that contains ["Duration:"], at the first match in
    that line of the pattern: two digits, a colon, two digits, a colon,
    two digits, any one character but a newline, two digits.  That match
    is what is converted; when it is a timestamp [HH:MM:SS.ss] it gives
    [hours*3600 + minutes*60 + seconds + hundredths/100] seconds.  With
    two duration lines the last one counts, and [00:01:30.50] gives 90.5
    seconds. *)
Theorem duration_last_line_first_match
    (infos : string) (pre post : list string) (line l before rest : string)
    (h1 h2 m1 m2 s1 s2 d f1 f2 : ascii) :
  let ts := timestamp h1 h2 m1 m2 s1 s2 d f1 f2 in
  splitlines infos = pre ++ line :: post ->
  last (splitlines infos) = Some l ->
  str_in "No such file or directory" l = false ->
  str_in "Duration:" line = true ->
  forallb (fun l' => negb (str_in "Duration:" l')) post = true ->
  line = (before ++ ts ++ rest)%string ->
  timestamp_chars h1 h2 m1 m2 s1 s2 d f1 f2 = true ->
  no_match_before before (ts ++ rest) = true ->
  last (List.filter (str_in "Duration:") (splitlines infos)) = Some line
  /\ head (findall line) = Some ts
  /\ duration_of_infos infos
     = match _convert_to_seconds ts with
       | Some video_duration => Return video_duration
       | None => Raise DurationUnreadable
       end
  /\ (d = "."%char ->
      duration_of_infos infos
      = Return (two_digits h1 h2 * 3600 + two_digits m1 m2 * 60
                + two_digits s1 s2 + two_digits f1 f2 / 100))
  /\ exists seconds,
       duration_of_infos two_durations = Return seconds /\ seconds == 90.5.
Proof.
  intros ts Hlines Hlast Hfound Hmark Hpost Hline Hchars Hfirst.
  assert (Hsel : last (List.filter (str_in "Duration:") (splitlines infos))
                 = Some line).
  { rewrite Hlines. exact (last_filter_marker _ pre line post Hmark Hpost). }
  assert (Hhead : head (findall line) = Some ts).
  { rewrite Hline.
    exact (findall_first before _ _
             (match_here_timestamp _ _ _ _ _ _ _ _ _ rest Hchars) Hfirst). }
  assert (Hrun : duration_of_infos infos
                 = match _convert_to_seconds ts with
                   | Some video_duration => Return video_duration
                   | None => Raise DurationUnreadable
                   end).
  { unfold duration_of_infos. cbv zeta.
    now rewrite Hlast, Hfound, Hsel, Hhead. }
  split; [exact Hsel|]. split; [exact Hhead|]. split; [exact Hrun|]. split.
  - intros _. rewrite Hrun. reflexivity.
  - eexists. split; [vm_compute; reflexivity | reflexivity].
Qed.

(** C5, on an empty diagnostic text: no line holds the duration marker,
    and the probe stops at [lines[-1]] with an index error, outside the
    [try] that turns parsing failures into the duration error. *)
Theorem duration_of_empty_infos :
  splitlines "" = []
  /\ List.filter (str_in "Duration:") (splitlines "") = []
  /\ duration_of_infos "" = Raise IndexError
  /\ duration_of_infos "" <> Raise DurationUnreadable.
Proof. repeat split; try reflexivity. discriminate. Qed.

(** Where the text has at least one line, the probe fails as stated: with
    the not-found error when the last line reports a missing file, and
    with the duration error when no line holds the marker or the last such
    line holds no match of the pattern. *)
Lemma duration_of_infos_failures (infos l : string) :
  last (splitlines infos) = Some l ->
  (str_in "No such file or directory" l = true ->
   duration_of_infos infos = Raise NoSuchFile)
  /\ (str_in "No such file or directory" l = false ->
      List.filter (str_in "Duration:") (splitlines infos) = [] ->
      duration_of_infos infos = Raise DurationUnreadable)
  /\ (str_in "No such file or directory" l = false ->
      forall line,
        last (List.filter (str_in "Duration:") (splitlines infos)) = Some line ->
        findall line = [] ->
        duration_of_infos infos = Raise DurationUnreadable).
Proof.
  intros Hlast. unfold duration_of_infos. cbv zeta. rewrite Hlast.
  split; [|split].
  - intros ->. reflexivity.
  - intros -> ->. reflexivity.
  - intros -> line -> ->. reflexivity.
Qed.

(** ** Clip naming *)

Lemma prefix_empty s : String.prefix "" s = true.
Proof. destruct s; reflexivity. Qed.

Lemma prefix_cons a s1 b s2 :
  String.prefix (String a s1) (String b s2)
  = if Ascii.ascii_dec a b then String.prefix s1 s2 else false.
Proof. reflexivity. Qed.

Lemma str_in_slash_cons c t :
  str_in "/" (String c t) = Ascii.eqb c "/" || str_in "/" t.
Proof.
  cbn [str_in]. rewrite prefix_cons, prefix_empty.
  destruct (Ascii.ascii_dec "/" c) as [<- | Hne]; [reflexivity|].
  destruct (Ascii.eqb_spec c "/") as [-> | _]; [congruence | reflexivity].
Qed.

Lemma path_tail_no_slash p : str_in "/" (path_tail p) = false.
Proof.
  induction p as [|c t IH]; [reflexivity|].
  cbn [path_tail].
  destruct (str_in "/" t) eqn:Ht; [exact IH|].
  destruct (Ascii.eqb c "/") eqn:Hc; [exact Ht|].
  rewrite str_in_slash_cons, Hc, Ht. reflexivity.
Qed.

Lemma clip_name_not_absolute name tail_ :
  str_in "/" name = false ->
  String.prefix "/" (before_dot name ++ String "_" tail_) = false.
Proof.
  destruct name as [|c t]; [reflexivity|].
  rewrite str_in_slash_cons. intros H.
  apply orb_false_iff in H as [Hc _].
  cbn [before_dot]. destruct (Ascii.eqb c "."); [reflexivity|].
  change (String c (before_dot t) ++ String "_" tail_)%string
    with (String c (before_dot t ++ String "_" tail_)%string).
  rewrite prefix_cons.
  destruct (Ascii.ascii_dec "/" c) as [<- | _]; [discriminate | reflexivity].
Qed.

Lemma py_int_floor x : 0 <= x -> py_int x = Qfloor x.
Proof.
  destruct x as [n d]. unfold Qle, py_int. simpl. intros H.
  apply Z.quot_div_nonneg; lia.
Qed.

Lemma py_int_ceiling x : x <= 0 -> py_int x = Qceiling x.
Proof.
  destruct x as [n d]. unfold Qle, py_int, Qceiling. simpl. intros H.
  replace n with (- - n)%Z at 1 by lia.
  rewrite Z.quot_opp_l by lia. f_equal.
  apply Z.quot_div_nonneg; lia.
Qed.

Lemma py_int_whole x k : x == inject_Z k -> py_int x = k.
Proof.
  destruct x as [n d]. unfold Qeq, py_int. simpl. intros H.
  replace n with (k * Z.pos d)%Z by lia.
  apply Z.quot_mul. lia.
Qed.

Lemma py_round_whole x k : x == inject_Z k -> py_round x = k.
Proof.
  intros H. unfold py_round. cbv zeta.
  assert (Hf : Qfloor x = k) by (rewrite H; apply Qfloor_Z).
  rewrite Hf.
  assert (Hlt : x - inject_Z k < 1 # 2) by (rewrite H; lra).
  pose proof (proj1 (Qlt_alt (x - inject_Z k) (1 # 2)) Hlt) as Hc.
  rewrite Hc. reflexivity.
Qed.

Lemma py_int_Qeq x y : x == y -> py_int x = py_int y.
Proof.
  intros H. destruct (Qlt_le_dec x 0) as [Hneg | Hpos].
  - rewrite (py_int_ceiling x), (py_int_ceiling y) by (rewrite <- ?H; lra).
    now rewrite H.
  - rewrite (py_int_floor x), (py_int_floor y) by (rewrite <- ?H; lra).
    now rewrite H.
Qed.

(** The product of two floats does not depend on their order. *)
Lemma float_value_mul_comm (x y : float) :
  float_value (x * y)%float = float_value (y * x)%float.
Proof.
  unfold float_value. rewrite !mul_spec. unfold SF64mul, SFmul.
  destruct (Prim2SF x) as [sx|sx| |sx mx ex], (Prim2SF y) as [sy|sy| |sy my ey];
    rewrite ?(xorb_comm sy sx); try reflexivity.
  rewrite (Pos.mul_comm my mx), (Z.add_comm ey ex). reflexivity.
Qed.

Lemma path_join_clip_name video_file_path tail_ :
  temp_folder <> EmptyString -> ends_with_slash temp_folder = false ->
  path_join temp_folder
    (before_dot (path_tail video_file_path) ++ "_" ++ tail_)%string
  = (temp_folder ++ "/" ++ before_dot (path_tail video_file_path) ++ "_"
       ++ tail_)%string.
Proof.
  intros Hne Hslash. unfold path_join.
  change ("_" ++ tail_)%string with (String "_" tail_).
  rewrite (clip_name_not_absolute _ _ (path_tail_no_slash video_file_path)).
  rewrite Hslash, orb_false_r.
  destruct (String.eqb_spec temp_folder "") as [E | _]; [contradiction|].
  reflexivity.
Qed.

(** C7 (amended).  The clip of a window is named
    [{temp_folder}/{base}_{start_ms}_{end_ms}.mp4], where [base] is the
    source file name up to its first dot and the offsets are
    [int(1000 * start)] and [int(1000 * end)]: the float products,
    truncated towards zero, not rounded.  The name is the one with rounded
    offsets whenever both float products are whole numbers, and it is the
    name made from the exact offsets whenever both float products are
    exact. *)
Theorem clip_name_truncates (video_file_path : string) (start end_ : float)
    (start_ms end_ms : Q) :
  temp_folder <> EmptyString -> ends_with_slash temp_folder = false ->
  float_value (1000 * start)%float = Some start_ms ->
  float_value (1000 * end_)%float = Some end_ms ->
  float_clipped_file_path temp_folder video_file_path start end_
  = Some (temp_folder ++ "/" ++ before_dot (path_tail video_file_path) ++ "_"
            ++ py_str (py_int start_ms) ++ "_"
            ++ py_str (py_int end_ms) ++ ".mp4")%string
  /\ (forall x, (0 <= x -> py_int x = Qfloor x)
                /\ (x <= 0 -> py_int x = Qceiling x))
  /\ (forall k1 k2 : Z,
        start_ms == inject_Z k1 -> end_ms == inject_Z k2 ->
        float_clipped_file_path temp_folder video_file_path start end_
        = spec_clip_name temp_folder video_file_path start end_)
  /\ (forall s e : Q,
        start_ms == 1000 * s -> end_ms == 1000 * e ->
        float_clipped_file_path temp_folder video_file_path start end_
        = Some (clipped_file_path temp_folder video_file_path s e)).
Proof.
  intros Hne Hslash Hstart Hend.
  assert (Hname :
    float_clipped_file_path temp_folder video_file_path start end_
    = Some (temp_folder ++ "/" ++ before_dot (path_tail video_file_path) ++ "_"
              ++ py_str (py_int start_ms) ++ "_"
              ++ py_str (py_int end_ms) ++ ".mp4")%string).
  { unfold float_clipped_file_path, float_int. cbv zeta.
    rewrite Hstart, Hend. cbn [option_map].
    now rewrite path_join_clip_name. }
  split; [exact Hname|].
  split; [intros x; split; [apply py_int_floor | apply py_int_ceiling]|].
  split.
  - intros k1 k2 H1 H2. rewrite Hname. unfold spec_clip_name, float_round.
    rewrite (float_value_mul_comm start), (float_value_mul_comm end_).
    rewrite Hstart, Hend. cbn [option_map].
    rewrite (py_int_whole _ _ H1), (py_int_whole _ _ H2).
    rewrite (py_round_whole _ _ H1), (py_round_whole _ _ H2).
    reflexivity.
  - intros s e H1 H2. rewrite Hname. unfold clipped_file_path. cbv zeta.
    rewrite path_join_clip_name by assumption.
    now rewrite (py_int_Qeq _ _ H1), (py_int_Qeq _ _ H2).
Qed.

(** ** Running the monad *)

Lemma bind_return {A B} (m : M Frame A) (k : A -> M Frame B) w a w' :
  m w = (Return a, w') -> bind m k w = k a w'.
Proof. unfold bind. now intros ->. Qed.

Lemma bind_raise {A B} (m : M Frame A) (k : A -> M Frame B) w e w' :
  m w = (Raise e, w') -> bind m k w = (Raise e, w').
Proof. unfold bind. now intros ->. Qed.

Lemma bind_log {A} ev (k : unit -> M Frame A) w :
  bind (log ev) k w
  = k tt {| files := files w; calls := calls w ++ [ev] |}.
Proof. reflexivity. Qed.

Lemma validate_file_path_run {A} file_path (body : M Frame A) w :
  file_path ∈ files w -> validate_file_path file_path body w = body w.
Proof.
  intros H. unfold validate_file_path. now rewrite bool_decide_eq_true_2.
Qed.

Lemma world_eta (w : World Frame) :
  w = {| files := files w; calls := calls w |}.
Proof. now destruct w. Qed.

(** ** Clean-up of the clips *)

Lemma remove_clips_run video_clips : forall w,
  _remove_clips video_clips w
  = (Return tt,
     {| files := files w ∖ list_to_set video_clips;
        calls := calls w ++ map EvRemove video_clips |}).
Proof.
  induction video_clips as [|clip rest IH]; intros w.
  - simpl. unfold ret. rewrite app_nil_r.
    replace (files w ∖ ∅) with (files w) by (clear; set_solver).
    now rewrite <- world_eta.
  - cbn [_remove_clips]. unfold os_remove.
    destruct (bool_decide (clip ∈ files w)) eqn:E; rewrite IH; cbn [files calls].
    + f_equal. f_equal.
      * clear. set_solver.
      * now rewrite <- app_assoc.
    + apply bool_decide_eq_false in E.
      f_equal. f_equal.
      * clear -E. set_solver.
      * now rewrite <- app_assoc.
Qed.

(** ** The probe and the cuts *)

Lemma get_video_duration_run file_path infos duration w :
  file_path ∈ files w ->
  ffmpeg_info file_path = Return infos ->
  duration_of_infos infos = Return duration ->
  _get_video_duration_with_ffmpeg file_path w
  = (Return duration,
     {| files := files w; calls := calls w ++ [EvProbe file_path] |}).
Proof.
  intros Hin Hinfo Hdur. unfold _get_video_duration_with_ffmpeg.
  rewrite validate_file_path_run by exact Hin.
  unfold bind, log, lift. now rewrite Hinfo, Hdur.
Qed.

Lemma write_videofile_run video_file_path start end_ w :
  cut_succeeds video_file_path (start, end_) = true ->
  _write_videofile video_file_path start end_ w
  = (Return (clip_of video_file_path (start, end_)),
     {| files := files w ∪ {[clip_of video_file_path (start, end_)]};
        calls := calls w ++ [cut_of video_file_path (start, end_)] |}).
Proof.
  unfold cut_succeeds, clip_of. simpl. intros H.
  unfold _write_videofile, _ffmpeg_extract_subclip, bind, log, ret.
  rewrite H. reflexivity.
Qed.

Lemma split_while_run file_path d bp fuel : forall s ws acc w,
  split_loop min_video_duration fuel d bp s = Some ws ->
  forallb (cut_succeeds file_path) ws = true ->
  split_while fuel file_path d bp s acc w
  = (Return (acc ++ map (clip_of file_path) ws),
     {| files := files w ∪ list_to_set (map (clip_of file_path) ws);
        calls := calls w ++ map (cut_of file_path) ws |}).
Proof.
  induction fuel as [|fuel IH]; intros s ws acc w Hplan Hcuts.
  - simpl in *. destruct (Qltb s d); [discriminate|].
    injection Hplan as <-. simpl. unfold ret. rewrite !app_nil_r.
    replace (files w ∪ ∅) with (files w) by (clear; set_solver).
    now rewrite <- world_eta.
  - simpl in *. destruct (Qltb s d).
    + destruct (split_loop min_video_duration fuel d bp
                  (clip_end_of min_video_duration d bp s)) as [rest|] eqn:R;
        [|discriminate].
      injection Hplan as <-. simpl in Hcuts.
      apply andb_true_iff in Hcuts as [Hcut Hcuts].
      erewrite bind_return by (apply write_videofile_run; exact Hcut).
      rewrite (IH _ _ _ _ R Hcuts). cbn [files calls map].
      f_equal; [now rewrite <- app_assoc|].
      f_equal; [clear; set_solver | now rewrite <- app_assoc].
    + injection Hplan as <-. simpl. unfold ret. rewrite !app_nil_r.
      replace (files w ∪ ∅) with (files w) by (clear; set_solver).
      now rewrite <- world_eta.
Qed.

(** Within its budget the loop raises nothing but a failure of the media
    tool: the budget itself is never what stops it. *)
Lemma split_while_within_budget file_path d bp fuel : forall s acc w e w',
  0 < bp -> d - s <= inject_Z (Z.of_nat fuel) * bp ->
  split_while fuel file_path d bp s acc w = (Raise e, w') ->
  e = ExternalToolError.
Proof.
  induction fuel as [|fuel IH]; intros s acc w e w' Hbp Hf; simpl.
  - destruct (Qltb s d) eqn:E; [|discriminate].
    apply Qltb_true in E.
    change (inject_Z (Z.of_nat 0)) with 0 in Hf. lra.
  - destruct (Qltb s d) eqn:E; [|discriminate].
    apply Qltb_true in E.
    destruct (clip_end_of_cases min_video_duration d bp s Hbp E)
      as (H1 & H2 & H3).
    unfold bind at 1.
    destruct (_write_videofile file_path s
                (clip_end_of min_video_duration d bp s) w)
      as [[clip|e1] w1] eqn:Hw.
    + apply IH; [exact Hbp|].
      assert (Hpos : 0 <= inject_Z (Z.of_nat fuel)).
      { change 0 with (inject_Z 0). rewrite <- Zle_Qle. lia. }
      assert (Hs : inject_Z (Z.of_nat (S fuel))
                   == inject_Z (Z.of_nat fuel) + 1).
      { rewrite Nat2Z.inj_succ. unfold Z.succ. rewrite inject_Z_plus.
        reflexivity. }
      rewrite Hs in Hf.
      assert (Hprod : 0 <= inject_Z (Z.of_nat fuel) * bp)
        by (apply Qmult_le_0_compat; lra).
      destruct H3 as [-> | [-> _]]; lra.
    + intros [= <- _].
      unfold _write_videofile, _ffmpeg_extract_subclip, bind, log, ret in Hw.
      destruct (ffmpeg_cut _ _ _ _); [discriminate|].
      now injection Hw as <- _.
Qed.

Lemma split_run file_path infos duration w :
  file_path ∈ files w ->
  ffmpeg_info file_path = Return infos ->
  duration_of_infos infos = Return duration ->
  let ws := split_windows cpu_count min_video_duration duration in
  forallb (cut_succeeds file_path) ws = true ->
  _split file_path w
  = (Return (map (clip_of file_path) ws),
     {| files := files w ∪ list_to_set (map (clip_of file_path) ws);
        calls := calls w ++ EvProbe file_path :: map (cut_of file_path) ws |}).
Proof.
  intros Hin Hinfo Hdur ws Hcuts. unfold _split.
  rewrite validate_file_path_run by exact Hin.
  erewrite bind_return by (eapply get_video_duration_run; eauto).
  destruct (split_windows_plan cpu_count min_video_duration duration)
    as [Hrun _].
  rewrite (split_while_run _ _ _ _ _ _ _ _ Hrun Hcuts).
  cbn [files calls app]. now rewrite <- app_assoc.
Qed.

(** ** The extraction pool *)

(** With every extraction returning, every clip is run, in order. *)
Lemma run_batches_all chunksize clips : forall left w,
  forallb extraction_returns clips = true ->
  run_batches chunksize left false clips w
  = (Return (map (fun clip => Some (Return (frames_of clip))) clips),
     {| files := files w; calls := calls w ++ map EvExtract clips |}).
Proof.
  induction clips as [|clip rest IH]; intros left w H.
  - simpl. unfold ret. rewrite app_nil_r. now rewrite <- world_eta.
  - simpl in H. apply andb_true_iff in H as [Hclip Hrest].
    cbn [run_batches map].
    replace (match left with O => false | S _ => false end) with false
      by now destruct left.
    cbv zeta. rewrite bind_log.
    unfold extraction_returns in Hclip. unfold frames_of at 1.
    destruct (extract_candidate_frames clip) as [frames|]; [|discriminate].
    erewrite bind_return by (apply IH; exact Hrest).
    unfold ret. cbn [files calls]. now rewrite <- app_assoc.
Qed.

(** Whatever the workers raise, the batches come to an end: each clip has
    its result or none, and the log gains extractions of the clips only. *)
Lemma run_batches_ends chunksize clips : forall left failed w,
  exists results tried,
    run_batches chunksize left failed clips w
    = (Return results,
       {| files := files w; calls := calls w ++ map EvExtract tried |})
    /\ (forall clip, In clip tried -> In clip clips).
Proof.
  induction clips as [|clip rest IH]; intros left failed w.
  - exists [], []. split; [|intros clip []].
    simpl. unfold ret. rewrite app_nil_r. now rewrite <- world_eta.
  - cbn [run_batches]. cbv zeta.
    destruct (match left with O => false | S _ => failed end).
    + destruct (IH (pred match left with O => chunksize | S _ => left end)
                  true w) as (results & tried & Hrun & Hin).
      exists (None :: results), tried. split.
      * erewrite bind_return by exact Hrun. reflexivity.
      * intros c Hc. right. now apply Hin.
    + rewrite bind_log.
      destruct (IH (pred match left with O => chunksize | S _ => left end)
                  (match extract_candidate_frames clip with
                   | Raise _ => true
                   | Return _ => false
                   end)
                  {| files := files w; calls := calls w ++ [EvExtract clip] |})
        as (results & tried & Hrun & Hin).
      exists (Some (extract_candidate_frames clip) :: results), (clip :: tried).
      split.
      * erewrite bind_return by exact Hrun.
        unfold ret. cbn [files calls map]. now rewrite <- app_assoc.
      * intros c [Hc|Hc]; [now left | right; now apply Hin].
Qed.

(** The first clip whose extraction raises is run, whatever the batches. *)
Lemma run_batches_first_failure chunksize pre clip post e : forall left w,
  forallb extraction_returns pre = true ->
  extract_candidate_frames clip = Raise e ->
  exists results tried,
    run_batches chunksize left false (pre ++ clip :: post) w
    = (Return (map (fun c => Some (Return (frames_of c))) pre
               ++ Some (Raise e) :: results),
       {| files := files w;
          calls := calls w ++ map EvExtract (pre ++ clip :: tried) |})
    /\ (forall c, In c tried -> In c post).
Proof.
  induction pre as [|c pre IH]; intros left w Hpre Hclip.
  - cbn [app run_batches map]. cbv zeta.
    replace (match left with O => false | S _ => false end) with false
      by now destruct left.
    rewrite bind_log, Hclip.
    destruct (run_batches_ends chunksize post
                (pred match left with O => chunksize | S _ => left end) true
                {| files := files w; calls := calls w ++ [EvExtract clip] |})
      as (results & tried & Hrun & Hin).
    exists results, tried. split; [|exact Hin].
    erewrite bind_return by exact Hrun.
    unfold ret. cbn [files calls map]. now rewrite <- app_assoc.
  - simpl in Hpre. apply andb_true_iff in Hpre as [Hc Hpre].
    cbn [app run_batches map]. cbv zeta.
    replace (match left with O => false | S _ => false end) with false
      by now destruct left.
    rewrite bind_log.
    unfold extraction_returns in Hc. unfold frames_of at 1.
    destruct (extract_candidate_frames c) as [frames|]; [|discriminate].
    destruct (IH (pred match left with O => chunksize | S _ => left end)
                {| files := files w; calls := calls w ++ [EvExtract c] |}
                Hpre Hclip)
      as (results & tried & Hrun & Hin).
    exists results, tried. split; [|exact Hin].
    erewrite bind_return by exact Hrun.
    unfold ret. cbn [files calls map app]. now rewrite <- app_assoc.
Qed.

Lemma map_result_all clips :
  map_result (map (fun clip => Some (Return (frames_of clip))) clips)
  = Return (map frames_of clips).
Proof.
  induction clips as [|clip rest IH]; [reflexivity|].
  cbn [map map_result]. now rewrite IH.
Qed.

Lemma map_result_first_failure pre e results :
  map_result (map (fun c => Some (Return (frames_of c))) pre
              ++ Some (Raise e) :: results)
  = Raise e.
Proof.
  induction pre as [|c pre IH]; [reflexivity|].
  cbn [map app map_result]. now rewrite IH.
Qed.

Lemma first_failure {A} (f : A -> bool) (l : list A) :
  forallb f l = false ->
  exists pre x post,
    l = pre ++ x :: post /\ forallb f pre = true /\ f x = false.
Proof.
  induction l as [|a l IH]; [discriminate|].
  simpl. destruct (f a) eqn:Ha.
  - intros H. destruct (IH H) as (pre & x & post & -> & Hpre & Hx).
    exists (a :: pre), x, post. simpl. now rewrite Ha.
  - intros _. exists [], a, l. now split.
Qed.

Lemma pool_map_returns clips : forall w,
  forallb extraction_returns clips = true ->
  pool_map clips w
  = (Return (map frames_of clips),
     {| files := files w; calls := calls w ++ map EvExtract clips |}).
Proof.
  intros w H. unfold pool_map.
  erewrite bind_return by (apply run_batches_all; exact H).
  unfold lift. now rewrite map_result_all.
Qed.

(** A raising worker makes [map] raise what the collaborator raised on one
    of the clips, after extractions of clips of the call only. *)
Lemma pool_map_raises clips : forall w,
  forallb extraction_returns clips = false ->
  exists e clip tried,
    pool_map clips w
    = (Raise e,
       {| files := files w; calls := calls w ++ map EvExtract tried |})
    /\ In clip clips
    /\ extract_candidate_frames clip = Raise e
    /\ In clip tried
    /\ (forall c, In c tried -> In c clips).
Proof.
  intros w H.
  destruct (first_failure _ _ H) as (pre & clip & post & -> & Hpre & Hclip).
  unfold extraction_returns in Hclip.
  destruct (extract_candidate_frames clip) as [|e] eqn:He; [discriminate|].
  destruct (run_batches_first_failure
              (map_chunksize (length (pre ++ clip :: post)))
              pre clip post e 0%nat w Hpre He)
    as (results & tried & Hrun & Hin).
  exists e, clip, (pre ++ clip :: tried). unfold pool_map.
  erewrite bind_return by exact Hrun.
  unfold lift. rewrite map_result_first_failure.
  split; [reflexivity|].
  split; [apply in_or_app; right; now left|].
  split; [exact He|].
  split; [apply in_or_app; right; now left|].
  intros c Hc. apply in_app_or in Hc as [Hc|[Hc|Hc]]; apply in_or_app.
  - now left.
  - right. now left.
  - right. right. now apply Hin.
Qed.

(** ** The log only grows *)

Lemma logs_ret {A} P (a : A) : logs P (ret a).
Proof. intros w. exists []. now rewrite app_nil_r. Qed.

Lemma logs_raise {A} P e : logs P (@raise Frame A e).
Proof. intros w. exists []. now rewrite app_nil_r. Qed.

Lemma logs_lift {A} P (r : outcome A) : logs P (lift r).
Proof. intros w. exists []. now rewrite app_nil_r. Qed.

Lemma logs_log (P : Event Frame -> Prop) ev : P ev -> logs P (log ev).
Proof. intros H w. exists [ev]. split; [reflexivity | now constructor]. Qed.

Lemma logs_bind {A B} P (m : M Frame A) (k : A -> M Frame B) :
  logs P m -> (forall a, logs P (k a)) -> logs P (bind m k).
Proof.
  intros Hm Hk w. unfold bind.
  destruct (Hm w) as (l1 & E1 & F1).
  destruct (m w) as [[a|e] w1]; simpl in E1.
  - destruct (Hk a w1) as (l2 & E2 & F2).
    exists (l1 ++ l2). rewrite E2, E1, <- app_assoc.
    split; [reflexivity | now apply Forall_app].
  - exists l1. now split.
Qed.

Lemma logs_validate_file_path {A} P file_path (body : M Frame A) :
  logs P body -> logs P (validate_file_path file_path body).
Proof.
  intros H w. unfold validate_file_path.
  destruct (bool_decide (file_path ∈ files w)); [apply H|].
  exists []. now rewrite app_nil_r.
Qed.

Lemma logs_validate_dir_path {A} P dir_path (body : M Frame A) :
  logs P body -> logs P (validate_dir_path dir_path body).
Proof.
  intros H w. unfold validate_dir_path.
  destruct (os_path_isdir (files w) dir_path); [apply H|].
  exists []. now rewrite app_nil_r.
Qed.

Lemma logs_remove_clips video_clips :
  logs (fun _ => True) (_remove_clips video_clips).
Proof.
  intros w. rewrite remove_clips_run. simpl.
  eexists. split; [reflexivity|]. now apply Forall_forall.
Qed.

Lemma logs_write_videofile video_file_path start end_ :
  logs (fun _ => True) (_write_videofile video_file_path start end_).
Proof.
  intros w. unfold _write_videofile, _ffmpeg_extract_subclip, bind, log, ret.
  destruct (ffmpeg_cut _ _ _ _); simpl;
    (eexists; split; [reflexivity | now repeat constructor]).
Qed.

Lemma logs_split_while file_path d bp fuel : forall s acc,
  logs (fun _ => True) (split_while fuel file_path d bp s acc).
Proof.
  induction fuel as [|fuel IH]; intros s acc; simpl.
  - destruct (Qltb s d); [apply logs_raise | apply logs_ret].
  - destruct (Qltb s d); [|apply logs_ret].
    apply logs_bind; [apply logs_write_videofile | intros; apply IH].
Qed.

Lemma logs_get_video_duration file_path :
  logs (fun _ => True) (_get_video_duration_with_ffmpeg file_path).
Proof.
  apply logs_validate_file_path.
  apply logs_bind; [now apply logs_log | intros _].
  apply logs_bind; [apply logs_lift | intros; apply logs_lift].
Qed.

Lemma logs_split file_path : logs (fun _ => True) (_split file_path).
Proof.
  apply logs_validate_file_path.
  apply logs_bind; [apply logs_get_video_duration | intros].
  apply logs_split_while.
Qed.

Lemma logs_run_batches chunksize clips : forall left failed,
  logs (fun _ => True) (run_batches chunksize left failed clips).
Proof.
  induction clips as [|clip rest IH]; intros left failed; simpl;
    [apply logs_ret|].
  destruct (match left with O => false | S _ => failed end).
  - apply logs_bind; [apply IH | intros; apply logs_ret].
  - apply logs_bind; [now apply logs_log | intros _].
    apply logs_bind; [apply IH | intros; apply logs_ret].
Qed.

Lemma logs_pool_map clips : logs (fun _ => True) (pool_map clips).
Proof.
  apply logs_bind; [apply logs_run_batches | intros; apply logs_lift].
Qed.

(** ** [extract_video_keyframes] *)

Lemma n_processes_cases :
  (n_processes = Some (Z.pos cpu_count / 2 - 1)%Z
   /\ (1 <= Z.pos cpu_count / 2 - 1)%Z)
  \/ (n_processes = None /\ (Z.pos cpu_count / 2 - 1 < 1)%Z).
Proof.
  unfold n_processes. cbv zeta.
  destruct (Z.ltb_spec (Z.pos cpu_count / 2 - 1) 1); [right | left]; now split.
Qed.

(** C9.  Both pools of an extraction, the extractor's and the selector's,
    are created with the same size: [cpu_count() // 2 - 1], or the
    default ([None]) when that number is below 1. *)
Theorem pool_sizes (no_of_frames : Z) (file_path : string) (w : World Frame) :
  file_path ∈ files w ->
  ((n_processes = Some (Z.pos cpu_count / 2 - 1)%Z
    /\ (1 <= Z.pos cpu_count / 2 - 1)%Z)
   \/ (n_processes = None /\ (Z.pos cpu_count / 2 - 1 < 1)%Z))
  /\ exists rest,
       calls (snd (extract_video_keyframes no_of_frames file_path w))
       = calls w ++ EvPool PoolExtractor n_processes
                 :: EvPool PoolSelector n_processes :: rest.
Proof.
  intros Hin. split; [apply n_processes_cases|].
  unfold extract_video_keyframes.
  rewrite validate_file_path_run by exact Hin.
  rewrite !bind_log.
  match goal with
  | |- exists rest, calls (snd (?body ?w2)) = _ =>
      assert (Hrest : logs (fun _ => True) body);
        [|destruct (Hrest w2) as (l & El & _); exists l; rewrite El]
  end.
  - destruct (negb (check_if_valid_video file_path)); [apply logs_raise|].
    apply logs_bind; [apply logs_split | intros clips].
    apply logs_bind; [apply logs_pool_map | intros nested].
    apply logs_bind; [apply logs_remove_clips | intros _].
    apply logs_bind; [now apply logs_log | intros _; apply logs_lift].
  - cbn [calls]. rewrite <- !app_assoc. reflexivity.
Qed.

(** C8.  When every chunk's extraction returns, the selection stage is
    handed the concatenation of the per-chunk candidate lists in the order
    of the chunks, which is the order of their start times; it is invoked
    after every extraction and after every clip has been removed, and no
    clip of the call is on disk from then on. *)
Theorem extraction_barrier (no_of_frames : Z) (file_path infos : string)
    (duration : Q) (w : World Frame) :
  file_path ∈ files w ->
  check_if_valid_video file_path = true ->
  ffmpeg_info file_path = Return infos ->
  duration_of_infos infos = Return duration ->
  let ws := split_windows cpu_count min_video_duration duration in
  let clips := map (clip_of file_path) ws in
  let candidates := concat (map frames_of clips) in
  forallb (cut_succeeds file_path) ws = true ->
  forallb extraction_returns clips = true ->
  exists w',
    extract_video_keyframes no_of_frames file_path w
    = (select_best_frames candidates no_of_frames, w')
    /\ calls w'
       = calls w
         ++ [EvPool PoolExtractor n_processes;
             EvPool PoolSelector n_processes; EvProbe file_path]
         ++ map (cut_of file_path) ws
         ++ map EvExtract clips
         ++ map EvRemove clips
         ++ [EvSelect candidates no_of_frames]
    /\ files w' = (files w ∪ list_to_set clips) ∖ list_to_set clips
    /\ (forall clip, clip ∈ clips -> clip ∉ files w')
    /\ (forall (i j : nat) a b,
          (i < j)%nat -> ws !! i = Some a -> ws !! j = Some b ->
          fst a < fst b).
Proof.
  intros Hin Hvalid Hinfo Hdur ws clips candidates Hcuts Hext.
  unfold extract_video_keyframes.
  rewrite validate_file_path_run by exact Hin.
  rewrite !bind_log, Hvalid. cbn [negb].
  erewrite bind_return by (eapply split_run; eauto).
  fold ws. fold clips.
  erewrite bind_return by (apply pool_map_returns; exact Hext).
  erewrite bind_return by apply remove_clips_run.
  rewrite bind_log. unfold lift. cbn [files calls].
  eexists. split; [reflexivity|]. cbn [files calls].
  split; [|split; [reflexivity|split]].
  - repeat rewrite <- app_assoc. reflexivity.
  - intros clip Hclip. clear -Hclip. set_solver.
  - intros i j a b Hij Ha Hb.
    destruct (split_windows_plan cpu_count min_video_duration duration)
      as [_ Hplan].
    pose proof (plan_from_disjoint _ _ _ _ _ Hplan i j a b Hij Ha Hb) as Hd.
    pose proof (plan_from_bounds _ _ _ _ _ Hplan) as Hb'.
    rewrite Forall_forall in Hb'.
    assert (Hina : a ∈ ws) by (eapply list_elem_of_lookup_2; eauto).
    destruct (Hb' a Hina) as (_ & Hlt & _). lra.
Qed.

(** C1 (amended).  When the extraction collaborator raises on a chunk, the
    whole call fails with no result, and the exception that reaches the
    caller is the one the collaborator raised on a clip of the call;
    neither the clean-up of the clips nor the selection stage is reached
    (after the cuts the log holds extractions of clips of the call and
    nothing else), so every clip written for the call is still on disk
    when the failure reaches the caller. *)
Theorem extraction_failure_keeps_clips (no_of_frames : Z)
    (file_path infos : string) (duration : Q) (w : World Frame) :
  file_path ∈ files w ->
  check_if_valid_video file_path = true ->
  ffmpeg_info file_path = Return infos ->
  duration_of_infos infos = Return duration ->
  let ws := split_windows cpu_count min_video_duration duration in
  let clips := map (clip_of file_path) ws in
  forallb (cut_succeeds file_path) ws = true ->
  forallb extraction_returns clips = false ->
  exists e w',
    extract_video_keyframes no_of_frames file_path w = (Raise e, w')
    /\ (exists clip,
          (clip ∈ clips) /\ extract_candidate_frames clip = Raise e)
    /\ files w' = files w ∪ list_to_set clips
    /\ (forall clip, clip ∈ clips -> clip ∈ files w')
    /\ exists tried,
         (forall clip, clip ∈ tried -> clip ∈ clips)
         /\ calls w'
            = calls w
              ++ [EvPool PoolExtractor n_processes;
                  EvPool PoolSelector n_processes; EvProbe file_path]
              ++ map (cut_of file_path) ws
              ++ map EvExtract tried.
Proof.
  intros Hin Hvalid Hinfo Hdur ws clips Hcuts Hext.
  unfold extract_video_keyframes.
  rewrite validate_file_path_run by exact Hin.
  rewrite !bind_log, Hvalid. cbn [negb].
  erewrite bind_return by (eapply split_run; eauto).
  fold ws. fold clips.
  match goal with
  | |- context [bind (pool_map clips) _ ?w1] =>
      destruct (pool_map_raises clips w1 Hext)
        as (e & clip & tried & Hrun & Hclip & He & _ & Htried)
  end.
  exists e. erewrite bind_raise by exact Hrun.
  eexists. split; [reflexivity|]. cbn [files calls].
  split; [exists clip; split; [now apply list_elem_of_In | exact He]|].
  split; [reflexivity|]. split.
  - intros c Hc. clear -Hc. set_solver.
  - exists tried. split.
    + intros c Hc. apply list_elem_of_In, Htried. now apply list_elem_of_In.
    + repeat rewrite <- app_assoc. reflexivity.
Qed.

(** ** Compression of a directory *)

Lemma compress_video_returns file_path force crf codec out name w b w' :
  compress_video file_path force crf codec out name w = (Return b, w') ->
  calls w'
  = calls w
    ++ [EvCompress {| c_file_path := file_path;
                      c_force_overwrite := force;
                      c_crf_parameter := crf;
                      c_output_video_codec := codec;
                      c_out_dir_path := out;
                      c_out_file_name := name |} (Return b)].
Proof.
  unfold compress_video, validate_file_path, raise.
  destruct (bool_decide (file_path ∈ files w)); [|discriminate].
  destruct (negb (check_if_valid_video file_path)); [discriminate|].
  destruct (video_compressor _ (files w)) as [status disk].
  intros [= -> <-]. reflexivity.
Qed.

Lemma compress_each_returns force crf codec out videos : forall status w b w',
  compress_each videos force crf codec out status w = (Return b, w') ->
  exists statuses,
    length statuses = length videos
    /\ calls w'
       = calls w
         ++ map (fun vs => EvCompress (dir_args force crf codec out (fst vs))
                             (Return (snd vs)))
              (zip videos statuses)
    /\ b = status && forallb id statuses.
Proof.
  induction videos as [|video rest IH]; intros status w b w'.
  - simpl. unfold ret. intros [= <- <-]. exists [].
    repeat split; [now rewrite app_nil_r | now rewrite andb_true_r].
  - cbn [compress_each]. unfold bind.
    destruct (compress_video video force crf codec out "" w)
      as [[statusI|e] w1] eqn:E; [|discriminate].
    intros Hrest. apply compress_video_returns in E.
    destruct (IH _ _ _ _ Hrest) as (statuses & Hlen & Hcalls & Hb).
    exists (statusI :: statuses). split; [simpl; now rewrite Hlen|].
    split.
    + rewrite Hcalls, E, <- app_assoc. reflexivity.
    + rewrite Hb. simpl. unfold id at 1. now rewrite andb_assoc.
Qed.

Lemma compress_dir_returns dir_path force crf codec out name w b w' :
  compress_videos_from_dir dir_path force crf codec out name w
  = (Return b, w') ->
  exists statuses,
    length statuses
    = length (videos_of_walk (os_walk (files w) dir_path))
    /\ calls w'
       = calls w
         ++ EvWalk dir_path
            :: map (fun vs => EvCompress
                                (dir_args force crf codec out (fst vs))
                                (Return (snd vs)))
                 (zip (videos_of_walk (os_walk (files w) dir_path)) statuses)
    /\ b = forallb id statuses.
Proof.
  unfold compress_videos_from_dir, validate_dir_path.
  destruct (os_path_isdir (files w) dir_path); [|discriminate].
  rewrite bind_log. cbn [files]. intros Hrun.
  destruct (compress_each_returns _ _ _ _ _ _ _ _ _ Hrun)
    as (statuses & Hlen & Hcalls & Hb).
  exists statuses. split; [exact Hlen|]. split; [|exact Hb].
  rewrite Hcalls. cbn [calls]. now rewrite <- app_assoc.
Qed.

Lemma videos_of_walk_valid walk video :
  In video (videos_of_walk walk) -> check_if_valid_video video = true.
Proof.
  unfold videos_of_walk. rewrite in_flat_map.
  intros ([path filenames] & _ & Hin).
  apply List.filter_In in Hin. exact (proj2 Hin).
Qed.

(** A compressor that returns a status and removes no file lets the whole
    second loop run. *)
Lemma compress_each_total force crf codec out videos : forall status w,
  (forall args disk, exists b disk',
      video_compressor args disk = (Return b, disk') /\ disk ⊆ disk') ->
  (forall video, In video videos ->
      video ∈ files w /\ check_if_valid_video video = true) ->
  exists b w', compress_each videos force crf codec out status w
               = (Return b, w').
Proof.
  induction videos as [|video rest IH]; intros status w Hcontract Hvideos.
  - simpl. unfold ret. eauto.
  - cbn [compress_each].
    destruct (Hvideos video (or_introl eq_refl)) as [Hin Hvalid].
    destruct (Hcontract (dir_args force crf codec out video) (files w))
      as (statusI & disk & Hrun & Hsub).
    assert (Hstep :
      compress_video video force crf codec out "" w
      = (Return statusI,
         {| files := disk;
            calls := calls w
                     ++ [EvCompress (dir_args force crf codec out video)
                           (Return statusI)] |})).
    { unfold compress_video. rewrite validate_file_path_run by exact Hin.
      rewrite Hvalid. cbn [negb]. unfold dir_args in Hrun. now rewrite Hrun. }
    erewrite bind_return by exact Hstep.
    apply IH; [exact Hcontract|].
    intros v Hv. destruct (Hvideos v (or_intror Hv)) as [Hvin Hvvalid].
    split; [|exact Hvvalid]. cbn [files]. clear -Hvin Hsub. set_solver.
Qed.

Lemma logs_compress_video file_path force crf codec out :
  logs is_compress_default_name
    (compress_video file_path force crf codec out "").
Proof.
  apply logs_validate_file_path.
  destruct (negb (check_if_valid_video file_path)); [apply logs_raise|].
  intros w. cbv beta zeta.
  destruct (video_compressor _ (files w)) as [status disk]. simpl.
  eexists. split; [reflexivity|]. now repeat constructor.
Qed.

Lemma logs_compress_each force crf codec out videos : forall status,
  logs is_compress_default_name
    (compress_each videos force crf codec out status).
Proof.
  induction videos as [|video rest IH]; intros status; simpl.
  - apply logs_ret.
  - apply logs_bind; [apply logs_compress_video | intros; apply IH].
Qed.

(** C10.  The [out_file_name] of [compress_videos_from_dir] changes nothing:
    two calls that differ in it only make the same calls and give the same
    status, and every compression asked by the call carries the default,
    empty, output file name. *)
Theorem out_file_name_ignored (dir_path : string) (force_overwrite : bool)
    (crf_parameter : Z) (output_video_codec out_dir_path : string)
    (name1 name2 : string) (w : World Frame) :
  compress_videos_from_dir dir_path force_overwrite crf_parameter
    output_video_codec out_dir_path name1 w
  = compress_videos_from_dir dir_path force_overwrite crf_parameter
      output_video_codec out_dir_path name2 w
  /\ exists l,
       calls (snd (compress_videos_from_dir dir_path force_overwrite
                     crf_parameter output_video_codec out_dir_path name1 w))
       = calls w ++ l
       /\ Forall is_compress_default_name l.
Proof.
  split; [reflexivity|].
  revert w. change (logs is_compress_default_name
    (compress_videos_from_dir dir_path force_overwrite crf_parameter
       output_video_codec out_dir_path name1)).
  apply logs_validate_dir_path.
  apply logs_bind; [now apply logs_log | intros _].
  intros w. apply logs_compress_each.
Qed.


(** * Further properties of the code *)

(** ** The planner: shape and size of the plan *)

Lemma split_loop_ends minimum d bp fuel : forall s ws,
  split_loop minimum fuel d bp s = Some ws ->
  Forall (fun w => snd w = clip_end_of minimum d bp (fst w)) ws.
Proof.
  induction fuel as [|fuel IH]; intros s ws; simpl.
  - destruct (Qltb s d); [discriminate|]. intros [= <-]. constructor.
  - destruct (Qltb s d); [|intros [= <-]; constructor].
    destruct (split_loop minimum fuel d bp (clip_end_of minimum d bp s))
      as [rest|] eqn:R; [|discriminate].
    intros [= <-]. constructor; [reflexivity|]. eapply IH; eauto.
Qed.

Lemma clip_end_of_length minimum d bp s :
  clip_end_of minimum d bp s - s <= bp
  \/ clip_end_of minimum d bp s - s < bp + minimum.
Proof.
  unfold clip_end_of. cbv zeta.
  destruct (Qgtb (s + bp) d) eqn:E1; simpl.
  - apply Qgtb_true in E1. left. lra.
  - destruct (Qgtb (s + bp + minimum) d) eqn:E2.
    + apply Qgtb_true in E2. right. lra.
    + left. lra.
Qed.

Lemma plan_from_step minimum d bp s ws :
  plan_from minimum d bp s ws ->
  forall (i : nat) a b,
    ws !! i = Some a -> ws !! S i = Some b -> snd a = fst a + bp.
Proof.
  induction 1 as [s Hs | s e rest Hsd Hse Hed Hor Hrest IH]; intros i a b Ha Hb.
  - discriminate.
  - destruct i as [|i]; simpl in Ha, Hb.
    + injection Ha as <-. simpl.
      destruct rest as [|w rest']; [discriminate|]. injection Hb as <-.
      destruct (plan_from_head _ _ _ _ _ _ Hrest eq_refl) as [_ Hlt].
      destruct Hor as [-> | [-> _]]; [|reflexivity].
      exfalso. revert Hlt. apply Qlt_irrefl.
    + eapply IH; eauto.
Qed.

Lemma plan_from_count minimum d bp s ws :
  plan_from minimum d bp s ws -> ws <> [] ->
  s + (inject_Z (Z.of_nat (length ws)) - 1) * bp < d.
Proof.
  induction 1 as [s Hs | s e rest Hsd Hse Hed Hor Hrest IH]; intros Hne.
  - contradiction.
  - destruct rest as [|w rest'].
    + change (inject_Z (Z.of_nat (length [(s, e)]))) with 1. lra.
    + assert (Hne' : w :: rest' <> []) by discriminate.
      specialize (IH Hne').
      destruct (plan_from_head _ _ _ _ _ _ Hrest eq_refl) as [_ Hlt].
      assert (He : e = s + bp).
      { destruct Hor as [-> | [-> _]]; [|reflexivity].
        exfalso. revert Hlt. apply Qlt_irrefl. }
      subst e.
      change (length ((s, s + bp) :: w :: rest'))
        with (S (length (w :: rest'))).
      rewrite Nat2Z.inj_succ. unfold Z.succ. rewrite inject_Z_plus.
      change (inject_Z 1) with 1. lra.
Qed.

(** Every window but the last is one break point long, and the last is
    at most one break point long or shorter than a break point plus the
    minimum clip duration. *)
Theorem split_windows_lengths (duration : Q) :
  let bp := break_point cpu_count duration in
  let ws := split_windows cpu_count min_video_duration duration in
  (forall (i : nat) a b,
     ws !! i = Some a -> ws !! S i = Some b -> snd a = fst a + bp)
  /\ Forall (fun w => snd w - fst w <= bp
                      \/ snd w - fst w < bp + min_video_duration) ws.
Proof.
  cbv zeta.
  destruct (split_windows_plan cpu_count min_video_duration duration)
    as [Hrun Hplan].
  split; [eapply plan_from_step; eauto|].
  eapply Forall_impl; [eapply split_loop_ends; exact Hrun|].
  intros w ->. apply clip_end_of_length.
Qed.

(** The plan is empty exactly for a duration that is not positive, and a
    plan of [k] windows has [k - 1] whole break points strictly inside
    the duration. *)
Theorem split_windows_count (duration : Q) :
  let bp := break_point cpu_count duration in
  let ws := split_windows cpu_count min_video_duration duration in
  (ws = [] <-> duration <= 0)
  /\ (ws <> [] -> (inject_Z (Z.of_nat (length ws)) - 1) * bp < duration).
Proof.
  cbv zeta.
  destruct (split_windows_plan cpu_count min_video_duration duration)
    as [Hrun Hplan].
  split; [split|].
  - intros Hnil. rewrite Hnil in Hplan. now inversion Hplan.
  - intros Hd. inversion Hplan as [|s e rest Hlt]; [reflexivity | lra].
  - intros Hne.
    pose proof (plan_from_count _ _ _ _ _ Hplan Hne) as H. lra.
Qed.

Lemma break_point_whole cpus duration :
  exists k : Z, (16 <= k)%Z /\ break_point cpus duration = inject_Z k.
Proof.
  destruct (break_point_cases cpus duration) as [[-> H] | [-> _]].
  - unfold share in *. eexists. split; [|reflexivity].
    change 15 with (inject_Z 15) in H. rewrite <- Zlt_Qlt in H. lia.
  - exists 25%Z. split; [lia | reflexivity].
Qed.

Lemma plan_from_starts minimum d bp s ws :
  plan_from minimum d bp s ws ->
  forall (i : nat) a,
    ws !! i = Some a -> fst a == s + inject_Z (Z.of_nat i) * bp.
Proof.
  induction 1 as [s Hs | s e rest Hsd Hse Hed Hor Hrest IH]; intros i a Ha.
  - discriminate.
  - destruct i as [|i]; simpl in Ha.
    + injection Ha as <-. simpl. change (inject_Z 0) with 0. ring.
    + rewrite (IH _ _ Ha).
      assert (He : e = s + bp).
      { destruct rest as [|w rest']; [discriminate|].
        destruct (plan_from_head _ _ _ _ _ _ Hrest eq_refl) as [_ Hlt].
        destruct Hor as [-> | [-> _]]; [|reflexivity].
        exfalso. revert Hlt. apply Qlt_irrefl. }
      subst e. rewrite Nat2Z.inj_succ. unfold Z.succ.
      rewrite inject_Z_plus. change (inject_Z 1) with 1. ring.
Qed.

(** The break point is a whole number of seconds, at least 16, and the
    window of index [i] starts at [i] break points: every clip starts on
    a whole second. *)
Theorem split_windows_starts (duration : Q) :
  let ws := split_windows cpu_count min_video_duration duration in
  exists k : Z,
    (16 <= k)%Z
    /\ break_point cpu_count duration = inject_Z k
    /\ forall (i : nat) a,
         ws !! i = Some a -> fst a == inject_Z (Z.of_nat i * k).
Proof.
  cbv zeta.
  destruct (split_windows_plan cpu_count min_video_duration duration)
    as [_ Hplan].
  destruct (break_point_whole cpu_count duration) as (k & Hk & Hbp).
  exists k. split; [exact Hk|]. split; [exact Hbp|].
  intros i a Ha. rewrite (plan_from_starts _ _ _ _ _ Hplan i a Ha), Hbp.
  rewrite inject_Z_mult. ring.
Qed.

(** ** Clip names *)

Lemma str_in_char_cons c a t :
  str_in (String c "") (String a t)
  = Ascii.eqb a c || str_in (String c "") t.
Proof.
  cbn [str_in]. rewrite prefix_cons, prefix_empty.
  destruct (Ascii.ascii_dec c a) as [<- | Hne].
  - now rewrite Ascii.eqb_refl.
  - destruct (Ascii.eqb_spec a c) as [-> | _]; [congruence | reflexivity].
Qed.

Lemma str_in_char_app c a b :
  str_in (String c "") (a ++ b)
  = str_in (String c "") a || str_in (String c "") b.
Proof.
  induction a as [|x a IH].
  - simpl. destruct b; reflexivity.
  - change (String x a ++ b)%string with (String x (a ++ b)%string).
    rewrite !str_in_char_cons, IH. now rewrite orb_assoc.
Qed.

Lemma before_dot_no_char c name :
  str_in (String c "") name = false ->
  str_in (String c "") (before_dot name) = false.
Proof.
  induction name as [|x t IH]; [reflexivity|].
  rewrite str_in_char_cons. intros H.
  apply orb_false_iff in H as [Hx Ht].
  cbn [before_dot]. destruct (Ascii.eqb x "."); [reflexivity|].
  rewrite str_in_char_cons, Hx. now apply IH.
Qed.

Lemma uint_string_no_char c d :
  is_digit c = false ->
  str_in (String c "") (NilEmpty.string_of_uint d) = false.
Proof.
  intros Hc.
  assert (Hd : forall x, is_digit x = true -> Ascii.eqb x c = false).
  { intros x Hx. destruct (Ascii.eqb_spec x c) as [-> | _];
      [congruence | reflexivity]. }
  induction d; cbn [NilEmpty.string_of_uint]; [reflexivity | ..];
    rewrite str_in_char_cons, IHd; rewrite Hd by reflexivity; reflexivity.
Qed.

(** A decimal numeral holds digits and at most a leading minus sign. *)
Lemma py_str_no_char c n :
  is_digit c = false -> Ascii.eqb "-" c = false ->
  str_in (String c "") (py_str n) = false.
Proof.
  intros Hc Hm. unfold py_str.
  assert (Hu : forall d, str_in (String c "") (NilZero.string_of_uint d) = false).
  { intros d. destruct d; try apply (uint_string_no_char c _ Hc).
    change (NilZero.string_of_uint Decimal.Nil) with "0"%string.
    rewrite str_in_char_cons.
    destruct (Ascii.eqb_spec "0" c) as [<- | _]; [discriminate | reflexivity]. }
  destruct (Z.to_int n) as [d|d]; cbn [NilZero.string_of_int].
  - apply Hu.
  - rewrite str_in_char_cons, Hm. apply Hu.
Qed.

Lemma py_str_inj a b : py_str a = py_str b -> a = b.
Proof.
  unfold py_str. intros H.
  assert (Hnn : forall z, Z.to_int z <> Decimal.Pos Decimal.Nil
                          /\ Z.to_int z <> Decimal.Neg Decimal.Nil).
  { intros [|p|p]; simpl; split; try discriminate;
      intros [= E]; revert E; apply DecimalPos.Unsigned.to_uint_nonnil. }
  assert (E : Some (Z.to_int a) = Some (Z.to_int b)).
  { rewrite <- (NilZero.isi (Z.to_int a)) by apply Hnn.
    rewrite <- (NilZero.isi (Z.to_int b)) by apply Hnn.
    now rewrite H. }
  injection E as E.
  rewrite <- (DecimalZ.of_to a), <- (DecimalZ.of_to b). now rewrite E.
Qed.

Lemma append_cancel_l p a b : (p ++ a = p ++ b)%string -> a = b.
Proof.
  induction p as [|c p IH]; simpl; [easy|]. intros [= H]. now apply IH.
Qed.

Lemma split_at_first_char c a1 b1 a2 b2 :
  str_in (String c "") a1 = false -> str_in (String c "") a2 = false ->
  (a1 ++ String c b1 = a2 ++ String c b2)%string -> a1 = a2.
Proof.
  revert a2. induction a1 as [|x a1 IH]; intros [|y a2] H1 H2; simpl.
  - reflexivity.
  - intros [= <- _]. rewrite str_in_char_cons, Ascii.eqb_refl in H2.
    discriminate.
  - intros [= -> _]. rewrite str_in_char_cons, Ascii.eqb_refl in H1.
    discriminate.
  - rewrite str_in_char_cons in H1, H2.
    apply orb_false_iff in H1 as [_ H1]. apply orb_false_iff in H2 as [_ H2].
    intros [= -> H]. f_equal. now apply IH.
Qed.

Lemma clipped_file_path_name temp video_file_path start end_ :
  clipped_file_path temp video_file_path start end_
  = path_join temp (clip_file_name video_file_path start end_).
Proof. reflexivity. Qed.

Lemma clip_file_name_relative video_file_path start end_ :
  String.prefix "/" (clip_file_name video_file_path start end_) = false.
Proof.
  unfold clip_file_name. change ("_" ++ ?s)%string with (String "_" s).
  apply clip_name_not_absolute, path_tail_no_slash.
Qed.

(** Two clips of one video with the same path start at the same
    millisecond. *)
Lemma clipped_file_path_start temp video_file_path s1 e1 s2 e2 :
  clipped_file_path temp video_file_path s1 e1
  = clipped_file_path temp video_file_path s2 e2 ->
  py_int (1000 * s1) = py_int (1000 * s2).
Proof.
  rewrite !clipped_file_path_name. unfold path_join.
  rewrite !clip_file_name_relative.
  intros H.
  assert (Hn : clip_file_name video_file_path s1 e1
               = clip_file_name video_file_path s2 e2).
  { destruct (String.eqb temp "" || ends_with_slash temp).
    - eapply append_cancel_l; exact H.
    - apply append_cancel_l in H.
      change ("/" ++ ?s)%string with (String "/" s) in H.
      now injection H. }
  unfold clip_file_name in Hn. apply append_cancel_l in Hn.
  change ("_" ++ ?s)%string with (String "_" s) in Hn.
  injection Hn as Hn.
  apply py_str_inj.
  eapply (split_at_first_char "_"); [| |exact Hn];
    now apply py_str_no_char.
Qed.

Lemma py_int_increases x y : 0 <= x -> x + 1 <= y -> (py_int x < py_int y)%Z.
Proof.
  intros Hx Hxy. rewrite !py_int_floor by lra.
  pose proof (Qfloor_le x) as H1. pose proof (Qlt_floor y) as H2.
  rewrite inject_Z_plus in H2. change (inject_Z 1) with 1 in H2.
  rewrite Zlt_Qlt. lra.
Qed.

Lemma plan_from_clips_distinct minimum temp video_file_path d bp s ws :
  plan_from minimum d bp s ws -> 0 <= s -> 1 <= bp ->
  NoDup (map (fun w => clipped_file_path temp video_file_path (fst w) (snd w))
           ws).
Proof.
  induction 1 as [s Hs | s e rest Hsd Hse Hed Hor Hrest IH]; intros H0 Hbp.
  - constructor.
  - cbn [map]. apply NoDup_cons. split; [|apply IH; lra].
    intros Hin. apply list_elem_of_In, in_map_iff in Hin.
    destruct Hin as ([s' e'] & Heq & Hin). cbn [fst snd] in Heq.
    apply clipped_file_path_start in Heq.
    pose proof (plan_from_bounds _ _ _ _ _ Hrest) as Hb.
    rewrite Forall_forall in Hb.
    apply list_elem_of_In in Hin. destruct (Hb _ Hin) as (Hle & Hlt & Hle').
    cbn [fst snd] in Hle, Hlt, Hle'.
    assert (He : e = s + bp).
    { destruct Hor as [-> | [-> _]]; [lra | reflexivity]. }
    subst e.
    assert (py_int (1000 * s) < py_int (1000 * s'))%Z
      by (apply py_int_increases; lra).
    lia.
Qed.

(** The clips of one plan have distinct paths: no clip of a call
    overwrites another clip of the same call. *)
Theorem clips_of_plan_distinct (file_path : string) (duration : Q) :
  NoDup (map (clip_of file_path)
           (split_windows cpu_count min_video_duration duration)).
Proof.
  destruct (split_windows_plan cpu_count min_video_duration duration)
    as [_ Hplan].
  pose proof (break_point_gt_15 cpu_count duration).
  eapply (plan_from_clips_distinct _ temp_folder file_path) in Hplan;
    [exact Hplan | lra | lra].
Qed.

Lemma path_tail_id name : str_in "/" name = false -> path_tail name = name.
Proof.
  destruct name as [|c t]; [reflexivity|].
  rewrite str_in_char_cons. intros H.
  apply orb_false_iff in H as [Hc Ht].
  cbn [path_tail]. now rewrite Ht, Hc.
Qed.

Lemma path_tail_after_slash a name :
  str_in "/" name = false -> path_tail (a ++ String "/" name) = name.
Proof.
  intros Hn. induction a as [|c a IH].
  - change ("" ++ String "/" name)%string with (String "/" name).
    cbn [path_tail]. now rewrite Hn.
  - change (String c a ++ String "/" name)%string
      with (String c (a ++ String "/" name)%string).
    cbn [path_tail].
    rewrite str_in_char_app, str_in_char_cons, Ascii.eqb_refl, orb_true_r.
    exact IH.
Qed.

Lemma ends_with_slash_split a :
  ends_with_slash a = true -> exists a', a = (a' ++ "/")%string.
Proof.
  induction a as [|c a IH]; [discriminate|].
  destruct a as [|c' a'].
  - simpl. destruct (Ascii.eqb_spec c "/") as [-> | _]; [|discriminate].
    intros _. now exists ""%string.
  - intros H. destruct (IH H) as [b Hb]. exists (String c b).
    rewrite Hb. reflexivity.
Qed.

Lemma string_append_assoc (a b c : string) :
  ((a ++ b) ++ c = a ++ (b ++ c))%string.
Proof.
  induction a as [|x a IH]; [reflexivity|].
  change (String x ((a ++ b) ++ c) = String x (a ++ (b ++ c)))%string.
  now f_equal.
Qed.

Lemma clip_file_name_no_slash video_file_path start end_ :
  str_in "/" (clip_file_name video_file_path start end_) = false.
Proof.
  unfold clip_file_name.
  rewrite !str_in_char_app.
  rewrite (before_dot_no_char "/" _ (path_tail_no_slash video_file_path)).
  rewrite !py_str_no_char by reflexivity. reflexivity.
Qed.

(** A clip lies directly in the folder of the clips, whatever slashes and
    dots the path of the video has: its path is the folder joined to a
    file name without a slash, and that name is the last component of the
    path. *)
Theorem clip_in_temp_folder (video_file_path : string) (start end_ : Q) :
  let name := clip_file_name video_file_path start end_ in
  clipped_file_path temp_folder video_file_path start end_
  = path_join temp_folder name
  /\ str_in "/" name = false
  /\ path_tail (clipped_file_path temp_folder video_file_path start end_)
     = name.
Proof.
  cbv zeta. split; [reflexivity|].
  pose proof (clip_file_name_no_slash video_file_path start end_) as Hn.
  split; [exact Hn|].
  rewrite clipped_file_path_name. unfold path_join.
  rewrite clip_file_name_relative.
  destruct (String.eqb_spec temp_folder "") as [-> | Hne]; cbn [orb].
  - now apply path_tail_id.
  - destruct (ends_with_slash temp_folder) eqn:Hs.
    + destruct (ends_with_slash_split _ Hs) as [a' ->].
      rewrite string_append_assoc.
      change ("/" ++ ?s)%string with (String "/" s).
      now apply path_tail_after_slash.
    + change ("/" ++ ?s)%string with (String "/" s).
      now apply path_tail_after_slash.
Qed.

(** ** What a call does to the disk *)

Lemma changes_only_ret {A} P (Q : A -> Prop) a :
  Q a -> changes_only P Q (ret a).
Proof.
  intros Ha w. split; [now left|]. simpl. now intros ? [= <-].
Qed.

Lemma changes_only_raise {A} P (Q : A -> Prop) e :
  changes_only P Q (@raise Frame A e).
Proof. intros w. split; [now left | discriminate]. Qed.

Lemma changes_only_lift {A} P (r : outcome A) :
  changes_only P (fun _ => True) (lift r).
Proof. intros w. split; [now left | trivial]. Qed.

Lemma changes_only_log P ev : changes_only P (fun _ => True) (log ev).
Proof. intros w. split; [now left | trivial]. Qed.

Lemma changes_only_bind {A B} P (Q1 : A -> Prop) (Q2 : B -> Prop)
    (m : M Frame A) (k : A -> M Frame B) :
  changes_only P Q1 m -> (forall a, Q1 a -> changes_only P Q2 (k a)) ->
  changes_only P Q2 (bind m k).
Proof.
  intros Hm Hk w. unfold bind.
  destruct (Hm w) as [Hfiles Hret].
  destruct (m w) as [[a|e] w1]; simpl in *.
  - destruct (Hk a (Hret a eq_refl) w1) as [Hfiles' Hret'].
    split; [|exact Hret'].
    intros p. destruct (Hfiles p) as [H1 | HP]; [|now right].
    destruct (Hfiles' p) as [H2 | HP]; [|now right].
    left. now rewrite H2.
  - split; [exact Hfiles | discriminate].
Qed.

Lemma changes_only_validate_file_path {A} P (Q : A -> Prop) file_path
    (body : M Frame A) :
  changes_only P Q body -> changes_only P Q (validate_file_path file_path body).
Proof.
  intros H w. unfold validate_file_path.
  destruct (bool_decide (file_path ∈ files w)); [apply H|].
  split; [now left | discriminate].
Qed.

Lemma changes_only_write_videofile video_file_path start end_ :
  changes_only (is_clip_of video_file_path) (is_clip_of video_file_path)
    (_write_videofile video_file_path start end_).
Proof.
  intros w. unfold _write_videofile, _ffmpeg_extract_subclip, bind, log, ret.
  destruct (ffmpeg_cut _ _ _ _); simpl.
  - split; [|intros ? [= <-]; now exists start, end_].
    intros p.
    destruct (decide (p = clipped_file_path temp_folder video_file_path
                             start end_)) as [-> | Hne].
    + right. now exists start, end_.
    + left. clear -Hne. set_solver.
  - split; [now left | discriminate].
Qed.

Lemma changes_only_split_while file_path d bp fuel : forall s acc,
  Forall (is_clip_of file_path) acc ->
  changes_only (is_clip_of file_path) (Forall (is_clip_of file_path))
    (split_while fuel file_path d bp s acc).
Proof.
  induction fuel as [|fuel IH]; intros s acc Hacc; simpl.
  - destruct (Qltb s d); [apply changes_only_raise|].
    now apply changes_only_ret.
  - destruct (Qltb s d); [|now apply changes_only_ret].
    eapply changes_only_bind; [apply changes_only_write_videofile|].
    intros clip Hclip. apply IH.
    apply Forall_app. split; [exact Hacc | now constructor].
Qed.

Lemma changes_only_split file_path :
  changes_only (is_clip_of file_path) (Forall (is_clip_of file_path))
    (_split file_path).
Proof.
  apply changes_only_validate_file_path.
  eapply changes_only_bind with (Q1 := fun _ => True).
  - apply changes_only_validate_file_path.
    eapply changes_only_bind; [apply changes_only_log | intros _ _].
    eapply changes_only_bind; [apply changes_only_lift | intros ? _].
    apply changes_only_lift.
  - intros duration _. apply changes_only_split_while. constructor.
Qed.

Lemma changes_only_run_batches P chunksize clips : forall left failed,
  changes_only P (fun _ => True) (run_batches chunksize left failed clips).
Proof.
  induction clips as [|clip rest IH]; intros left failed; simpl.
  - now apply changes_only_ret.
  - destruct (match left with O => false | S _ => failed end).
    + eapply changes_only_bind; [apply IH | intros ? _].
      now apply changes_only_ret.
    + eapply changes_only_bind; [apply changes_only_log | intros _ _].
      eapply changes_only_bind; [apply IH | intros ? _].
      now apply changes_only_ret.
Qed.

Lemma changes_only_pool_map P clips :
  changes_only P (fun _ => True) (pool_map clips).
Proof.
  eapply changes_only_bind; [apply changes_only_run_batches | intros ? _].
  apply changes_only_lift.
Qed.

Lemma changes_only_remove_clips (P : string -> Prop) video_clips :
  Forall P video_clips ->
  changes_only P (fun _ => True) (_remove_clips video_clips).
Proof.
  intros HP w. rewrite remove_clips_run. simpl. split; [|trivial].
  intros p. destruct (decide (p ∈ video_clips)) as [Hin | Hnin].
  - right. rewrite Forall_forall in HP. now apply HP.
  - left. clear -Hnin. set_solver.
Qed.

(** Whatever happens in a call of [extract_video_keyframes], failure
    included, the only paths it puts on disk or takes from it are paths
    of clips of the video it was given: every other file is left as it
    was. *)
Theorem extract_changes_only_clips (no_of_frames : Z) (file_path : string)
    (w : World Frame) (p : string) :
  (p ∈ files (snd (extract_video_keyframes no_of_frames file_path w))
   <-> p ∈ files w)
  \/ is_clip_of file_path p.
Proof.
  assert (H : changes_only (is_clip_of file_path) (fun _ => True)
                (extract_video_keyframes no_of_frames file_path)).
  { apply changes_only_validate_file_path.
    eapply changes_only_bind; [apply changes_only_log | intros _ _].
    eapply changes_only_bind; [apply changes_only_log | intros _ _].
    destruct (negb (check_if_valid_video file_path));
      [apply changes_only_raise|].
    eapply changes_only_bind; [apply changes_only_split | intros clips Hclips].
    eapply changes_only_bind; [apply changes_only_pool_map | intros nested _].
    eapply changes_only_bind;
      [apply changes_only_remove_clips; exact Hclips | intros _ _].
    eapply changes_only_bind; [apply changes_only_log | intros _ _].
    apply changes_only_lift. }
  apply (H w).
Qed.

(** ** Failures before the extraction *)

Lemma write_videofile_fails video_file_path start end_ w :
  cut_succeeds video_file_path (start, end_) = false ->
  _write_videofile video_file_path start end_ w
  = (Raise ExternalToolError,
     {| files := files w;
        calls := calls w ++ [cut_of video_file_path (start, end_)] |}).
Proof.
  unfold cut_succeeds, clip_of. simpl. intros H.
  unfold _write_videofile, _ffmpeg_extract_subclip, bind, log, ret.
  rewrite H. reflexivity.
Qed.

Lemma split_while_cut_fails file_path d bp pre x post :
  forall fuel s acc w,
  split_loop min_video_duration fuel d bp s = Some (pre ++ x :: post) ->
  forallb (cut_succeeds file_path) pre = true ->
  cut_succeeds file_path x = false ->
  split_while fuel file_path d bp s acc w
  = (Raise ExternalToolError,
     {| files := files w ∪ list_to_set (map (clip_of file_path) pre);
        calls := calls w ++ map (cut_of file_path) pre
                 ++ [cut_of file_path x] |}).
Proof.
  induction pre as [|p pre IH]; intros fuel s acc w Hplan Hpre Hx.
  - destruct fuel as [|fuel]; simpl in Hplan |- *;
      (destruct (Qltb s d); [|discriminate]); [discriminate|].
    destruct (split_loop min_video_duration fuel d bp
                (clip_end_of min_video_duration d bp s)); [|discriminate].
    injection Hplan as <- _.
    erewrite bind_raise by (apply write_videofile_fails; exact Hx).
    cbn [map app]. f_equal. f_equal. clear. set_solver.
  - destruct fuel as [|fuel]; simpl in Hplan |- *;
      (destruct (Qltb s d); [|discriminate]); [discriminate|].
    destruct (split_loop min_video_duration fuel d bp
                (clip_end_of min_video_duration d bp s)) as [rest|] eqn:R;
      [|discriminate].
    injection Hplan as <- Hrest. rewrite Hrest in R.
    simpl in Hpre. apply andb_true_iff in Hpre as [Hp Hpre].
    erewrite bind_return by (apply write_videofile_run; exact Hp).
    rewrite (IH _ _ _ _ R Hpre Hx). cbn [files calls map app].
    f_equal. f_equal; [clear; set_solver|].
    now rewrite <- app_assoc.
Qed.

(** A cut that fails ends the call with the error of the media tool: the
    clips already written stay on disk, no later window is cut, and
    nothing is extracted, removed or selected. *)
Theorem cut_failure_leaves_earlier_clips (no_of_frames : Z)
    (file_path infos : string) (duration : Q) (pre post : list (Q * Q))
    (x : Q * Q) (w : World Frame) :
  file_path ∈ files w ->
  check_if_valid_video file_path = true ->
  ffmpeg_info file_path = Return infos ->
  duration_of_infos infos = Return duration ->
  split_windows cpu_count min_video_duration duration = pre ++ x :: post ->
  forallb (cut_succeeds file_path) pre = true ->
  cut_succeeds file_path x = false ->
  extract_video_keyframes no_of_frames file_path w
  = (Raise ExternalToolError,
     {| files := files w ∪ list_to_set (map (clip_of file_path) pre);
        calls := calls w
                 ++ [EvPool PoolExtractor n_processes;
                     EvPool PoolSelector n_processes; EvProbe file_path]
                 ++ map (cut_of file_path) pre ++ [cut_of file_path x] |}).
Proof.
  intros Hin Hvalid Hinfo Hdur Hws Hpre Hx.
  unfold extract_video_keyframes.
  rewrite validate_file_path_run by exact Hin.
  rewrite !bind_log, Hvalid. cbn [negb].
  destruct (split_windows_plan cpu_count min_video_duration duration)
    as [Hrun _].
  rewrite Hws in Hrun.
  assert (Hsplit :
    _split file_path
      {| files := files w;
         calls := (calls w ++ [EvPool PoolExtractor n_processes])
                  ++ [EvPool PoolSelector n_processes] |}
    = (Raise ExternalToolError,
       {| files := files w ∪ list_to_set (map (clip_of file_path) pre);
          calls := calls w
                   ++ [EvPool PoolExtractor n_processes;
                       EvPool PoolSelector n_processes; EvProbe file_path]
                   ++ map (cut_of file_path) pre ++ [cut_of file_path x] |})).
  { unfold _split. rewrite validate_file_path_run by exact Hin.
    erewrite bind_return by (eapply get_video_duration_run; eauto).
    rewrite (split_while_cut_fails _ _ _ _ _ _ _ _ _ _ Hrun Hpre Hx).
    cbn [files calls]. f_equal. f_equal.
    repeat rewrite <- app_assoc. reflexivity. }
  erewrite bind_raise by exact Hsplit. reflexivity.
Qed.

Lemma split_probe_fails file_path e w :
  file_path ∈ files w ->
  ffmpeg_info file_path = Raise e
  \/ (exists infos, ffmpeg_info file_path = Return infos
                    /\ duration_of_infos infos = Raise e) ->
  _split file_path w
  = (Raise e, {| files := files w; calls := calls w ++ [EvProbe file_path] |}).
Proof.
  intros Hin He. unfold _split.
  rewrite validate_file_path_run by exact Hin.
  unfold bind at 1. unfold _get_video_duration_with_ffmpeg.
  rewrite validate_file_path_run by exact Hin.
  unfold bind, log, lift.
  destruct He as [-> | (infos & -> & ->)]; reflexivity.
Qed.

(** The two pools are created before the video is looked at: an invalid
    video ends the call with two pools created and nothing else asked,
    and a probe that fails ends it with the probe's error; in both cases
    the disk is as it was. *)
Theorem extract_fails_before_cutting (no_of_frames : Z) (file_path : string)
    (w : World Frame) :
  file_path ∈ files w ->
  (check_if_valid_video file_path = false ->
   extract_video_keyframes no_of_frames file_path w
   = (Raise InvalidVideo,
      {| files := files w;
         calls := calls w ++ [EvPool PoolExtractor n_processes;
                              EvPool PoolSelector n_processes] |}))
  /\ (check_if_valid_video file_path = true ->
      forall e,
        ffmpeg_info file_path = Raise e
        \/ (exists infos, ffmpeg_info file_path = Return infos
                          /\ duration_of_infos infos = Raise e) ->
        extract_video_keyframes no_of_frames file_path w
        = (Raise e,
           {| files := files w;
              calls := calls w ++ [EvPool PoolExtractor n_processes;
                                   EvPool PoolSelector n_processes;
                                   EvProbe file_path] |})).
Proof.
  intros Hin. unfold extract_video_keyframes.
  rewrite validate_file_path_run by exact Hin.
  rewrite !bind_log. split.
  - intros ->. cbn [negb]. unfold raise. cbn [files calls].
    now rewrite <- app_assoc.
  - intros -> e He. cbn [negb].
    erewrite bind_raise by (apply split_probe_fails; [exact Hin | exact He]).
    cbn [files calls]. repeat rewrite <- app_assoc. reflexivity.
Qed.

(** ** The probe's failures *)

Lemma splitlines_nil s : splitlines s = [] <-> s = EmptyString.
Proof.
  split; [|now intros ->].
  destruct s as [|c t]; [reflexivity|]. intros H. exfalso.
  cbn [splitlines] in H. destruct (is_linebreak c).
  - destruct c as [[] [] [] [] [] [] [] []]; try discriminate H.
    destruct t as [|[[] [] [] [] [] [] [] []] t']; discriminate H.
  - destruct (splitlines t); discriminate H.
Qed.

Lemma duration_of_infos_cases infos :
  (infos = EmptyString /\ duration_of_infos infos = Raise IndexError)
  \/ (exists l, last (splitlines infos) = Some l
               /\ str_in "No such file or directory" l = true
               /\ duration_of_infos infos = Raise NoSuchFile)
  \/ (exists l, last (splitlines infos) = Some l
               /\ str_in "No such file or directory" l = false
               /\ (duration_of_infos infos = Raise DurationUnreadable
                   \/ exists line m seconds,
                        last (List.filter (str_in "Duration:")
                                (splitlines infos)) = Some line
                        /\ head (findall line) = Some m
                        /\ duration_of_infos infos = Return seconds)).
Proof.
  unfold duration_of_infos. cbv zeta.
  destruct (last (splitlines infos)) as [l|] eqn:Hl.
  - right. destruct (str_in "No such file or directory" l) eqn:Hnsf.
    + left. now exists l.
    + right. exists l. split; [reflexivity|]. split; [exact Hnsf|].
      destruct (last (List.filter (str_in "Duration:") (splitlines infos)))
        as [line|] eqn:Hline; [|now left].
      destruct (head (findall line)) as [m|] eqn:Hm; [|now left].
      destruct (_convert_to_seconds m) as [seconds|]; [|now left].
      right. now exists line, m, seconds.
  - left. apply last_None in Hl. apply splitlines_nil in Hl. now split.
Qed.

(** The probe raises the index error exactly on an empty diagnostic text
    and the not-found error exactly when the last line reports a missing
    file, whatever the other lines hold; any other failure is the duration
    error; and a duration comes only from a match of the pattern in the
    last line that holds the marker. *)
Theorem duration_failure_kinds (infos : string) :
  (duration_of_infos infos = Raise IndexError <-> infos = EmptyString)
  /\ (duration_of_infos infos = Raise NoSuchFile
      <-> exists l, last (splitlines infos) = Some l
                    /\ str_in "No such file or directory" l = true)
  /\ (forall e, duration_of_infos infos = Raise e ->
        e = IndexError \/ e = NoSuchFile \/ e = DurationUnreadable)
  /\ (forall seconds, duration_of_infos infos = Return seconds ->
        exists l line m,
          last (splitlines infos) = Some l
          /\ str_in "No such file or directory" l = false
          /\ last (List.filter (str_in "Duration:") (splitlines infos))
             = Some line
          /\ head (findall line) = Some m).
Proof.
  destruct (duration_of_infos_cases infos)
    as [[Hempty Hr] | [(l & Hl & Hnsf & Hr)
                      | (l & Hl & Hnsf & [Hr | (line & m & s & Hline & Hm & Hr)])]];
    rewrite Hr.
  - split; [split; [intros _; exact Hempty | reflexivity]|].
    split; [split; [discriminate|]|].
    + intros (l & Hl & _). subst infos. discriminate Hl.
    + split; [intros e [= <-]; now left | discriminate].
  - split; [split; [discriminate | intros ->; discriminate Hl]|].
    split; [split; [intros _; now exists l | reflexivity]|].
    split; [intros e [= <-]; right; now left | discriminate].
  - split; [split; [discriminate | intros ->; discriminate Hl]|].
    split; [split; [discriminate|]|].
    + intros (l' & Hl' & Hnsf'). congruence.
    + split; [intros e [= <-]; right; now right | discriminate].
  - split; [split; [discriminate | intros ->; discriminate Hl]|].
    split; [split; [discriminate|]|].
    + intros (l' & Hl' & Hnsf'). congruence.
    + split; [discriminate|]. intros _ _. now exists l, line, m.
Qed.

(** ** The clean-up *)

(** [_remove_clips] never raises, whether or not the clips are on disk and
    however often one is listed: afterwards exactly the listed paths are
    gone, every other file is as it was, one removal per listed clip was
    asked, and removing the same clips again changes no file. *)
Theorem remove_clips_exact (video_clips : list string) (w : World Frame) :
  exists w',
    _remove_clips video_clips w = (Return tt, w')
    /\ (forall p, p ∈ files w' <-> p ∈ files w /\ p ∉ video_clips)
    /\ calls w' = calls w ++ map EvRemove video_clips
    /\ files (snd (_remove_clips video_clips w')) = files w'.
Proof.
  eexists. split; [apply remove_clips_run|]. cbn [files calls].
  split; [|split; [reflexivity|]].
  - intros p. clear. set_solver.
  - rewrite remove_clips_run. cbn [snd files]. clear. set_solver.
Qed.

(** ** Directories *)

Lemma compress_video_raises file_path force crf codec out name w e w' :
  compress_video file_path force crf codec out name w = (Raise e, w') ->
  calls w' = calls w
  \/ calls w'
     = calls w
       ++ [EvCompress {| c_file_path := file_path;
                         c_force_overwrite := force;
                         c_crf_parameter := crf;
                         c_output_video_codec := codec;
                         c_out_dir_path := out;
                         c_out_file_name := name |} (Raise e)].
Proof.
  unfold compress_video, validate_file_path, raise.
  destruct (bool_decide (file_path ∈ files w)); [|intros [= _ <-]; now left].
  destruct (negb (check_if_valid_video file_path)); [intros [= _ <-]; now left|].
  destruct (video_compressor _ (files w)) as [status disk].
  intros [= -> <-]. now right.
Qed.

Lemma compress_each_raises force crf codec out videos : forall status w e w',
  compress_each videos force crf codec out status w = (Raise e, w') ->
  exists n statuses tail_,
    (n < length videos)%nat /\ length statuses = n
    /\ calls w'
       = calls w
         ++ compress_calls force crf codec out (take n videos) statuses
         ++ tail_
    /\ (tail_ = []
        \/ exists video,
             videos !! n = Some video
             /\ tail_ = [EvCompress (dir_args force crf codec out video)
                           (Raise e)]).
Proof.
  induction videos as [|video rest IH]; intros status w e w'.
  - discriminate.
  - cbn [compress_each]. unfold bind.
    destruct (compress_video video force crf codec out "" w)
      as [[statusI|e1] w1] eqn:E.
    + intros Hrest. apply compress_video_returns in E.
      destruct (IH _ _ _ _ Hrest)
        as (n & statuses & tail_ & Hn & Hlen & Hcalls & Htail).
      exists (S n), (statusI :: statuses), tail_.
      split; [simpl; lia|]. split; [simpl; now rewrite Hlen|].
      split; [|exact Htail].
      rewrite Hcalls, E. unfold compress_calls. cbn [take zip zip_with map].
      now rewrite <- app_assoc.
    + intros [= <- <-]. apply compress_video_raises in E.
      destruct E as [E | E].
      * exists 0%nat, [], []. split; [simpl; lia|]. split; [reflexivity|].
        split; [|now left]. unfold compress_calls. simpl.
        now rewrite app_nil_r.
      * exists 0%nat, [], [EvCompress (dir_args force crf codec out video)
                             (Raise e1)].
        split; [simpl; lia|]. split; [reflexivity|].
        split; [exact E|]. right. now exists video.
Qed.

(** An exception of a per-file compression ends the batch with that
    exception: the videos before it were compressed and returned a
    status, the videos after it are never handed to the compressor. *)
Theorem compress_dir_aborts (dir_path : string) (force_overwrite : bool)
    (crf_parameter : Z) (output_video_codec out_dir_path out_file_name : string)
    (w w' : World Frame) (e : exn) :
  os_path_isdir (files w) dir_path = true ->
  compress_videos_from_dir dir_path force_overwrite crf_parameter
    output_video_codec out_dir_path out_file_name w
  = (Raise e, w') ->
  let videos := videos_of_walk (os_walk (files w) dir_path) in
  exists n statuses tail_,
    (n < length videos)%nat /\ length statuses = n
    /\ calls w'
       = calls w
         ++ EvWalk dir_path
            :: compress_calls force_overwrite crf_parameter
                 output_video_codec out_dir_path (take n videos) statuses
         ++ tail_
    /\ (tail_ = []
        \/ exists video,
             videos !! n = Some video
             /\ tail_ = [EvCompress
                           (dir_args force_overwrite crf_parameter
                              output_video_codec out_dir_path video)
                           (Raise e)]).
Proof.
  intros Hdir. unfold compress_videos_from_dir, validate_dir_path.
  rewrite Hdir, bind_log. cbn [files]. intros Hrun. cbv zeta.
  destruct (compress_each_raises _ _ _ _ _ _ _ _ _ Hrun)
    as (n & statuses & tail_ & Hn & Hlen & Hcalls & Htail).
  exists n, statuses, tail_. repeat split; try assumption.
  rewrite Hcalls. cbn [calls]. now rewrite <- app_assoc.
Qed.

Lemma extract_each_returns no_of_frames videos : forall all_frames w d w',
  extract_each videos no_of_frames all_frames w = (Return d, w') ->
  dom d = dom all_frames ∪ list_to_set videos.
Proof.
  induction videos as [|video rest IH]; intros all_frames w d w'.
  - simpl. unfold ret. intros [= <- _]. clear. set_solver.
  - cbn [extract_each]. unfold bind.
    destruct (extract_video_keyframes no_of_frames video w)
      as [[frames|e] w1]; [|discriminate].
    intros Hrest. apply IH in Hrest. rewrite Hrest, dom_insert_L.
    clear. set_solver.
Qed.

(** When [extract_keyframes_from_videos_dir] returns a dictionary, its
    keys are exactly the joined paths of the files of the walk whose name
    passed the validity check: every one of them was extracted, and an
    extraction that raises leaves no dictionary at all. *)
Theorem extract_dir_keys (no_of_frames : Z) (dir_path : string)
    (w w' : World Frame) (d : gmap string (list Frame)) :
  extract_keyframes_from_videos_dir no_of_frames dir_path w
  = (Return d, w') ->
  dom d = list_to_set (named_videos_of_walk (os_walk (files w) dir_path))
  /\ forall video,
       In video (named_videos_of_walk (os_walk (files w) dir_path)) ->
       is_Some (d !! video).
Proof.
  unfold extract_keyframes_from_videos_dir, validate_dir_path.
  destruct (os_path_isdir (files w) dir_path); [|discriminate].
  rewrite bind_log. cbn [files]. intros Hrun.
  apply extract_each_returns in Hrun.
  assert (Hdom : dom d
    = list_to_set (named_videos_of_walk (os_walk (files w) dir_path))).
  { rewrite Hrun, dom_empty_L. clear. set_solver. }
  split; [exact Hdom|].
  intros video Hin. apply elem_of_dom. rewrite Hdom.
  apply elem_of_list_to_set, list_elem_of_In. exact Hin.
Qed.





End Video.

(** C6.  [compress_videos_from_dir] first collects the valid videos by a
    walk of the directory, as the disk is before any compression; after
    the walk it hands every collected video to the compressor once, in
    order, whatever the earlier statuses; and the status it returns is the
    conjunction of theirs.  On three valid videos the second of which
    fails to compress, the status is false and the compressor is called
    three times. *)
Theorem compress_dir_no_short_circuit (Frame : Type)
    (check_if_valid_video : string -> bool)
    (video_compressor :
       CompressArgs -> gset string -> outcome bool * gset string)
    (os_path_isdir : gset string -> string -> bool)
    (os_walk : gset string -> string -> list (string * list string))
    (dir_path : string) (force_overwrite : bool) (crf_parameter : Z)
    (output_video_codec out_dir_path out_file_name : string)
    (w : World Frame) :
  let videos :=
    videos_of_walk check_if_valid_video (os_walk (files w) dir_path) in
  os_path_isdir (files w) dir_path = true ->
  (forall args disk, exists b disk',
      video_compressor args disk = (Return b, disk') /\ disk ⊆ disk') ->
  (forall video, In video videos -> video ∈ files w) ->
  (exists statuses w',
     compress_videos_from_dir Frame check_if_valid_video video_compressor
       os_path_isdir os_walk dir_path force_overwrite crf_parameter
       output_video_codec out_dir_path out_file_name w
     = (Return (forallb id statuses), w')
     /\ length statuses = length videos
     /\ calls w'
        = calls w
          ++ EvWalk dir_path
             :: map (fun vs => EvCompress
                                 (dir_args force_overwrite crf_parameter
                                    output_video_codec out_dir_path (fst vs))
                                 (Return (snd vs)))
                  (zip videos statuses))
  /\ (let run :=
        compress_videos_from_dir nat demo_valid demo_compressor demo_isdir
          demo_walk "/videos" false 23 "libx264" "/out" "" demo_world in
      fst run = Return false
      /\ calls (snd run)
         = [EvWalk "/videos";
            EvCompress (dir_args false 23 "libx264" "/out" "/videos/a.mp4")
              (Return true);
            EvCompress (dir_args false 23 "libx264" "/out" "/videos/b.mp4")
              (Return false);
            EvCompress (dir_args false 23 "libx264" "/out" "/videos/old/c.mp4")
              (Return true)]).
Proof.
  intros videos Hdir Hcontract Hexist. split; [|split; vm_compute; reflexivity].
  assert (Hreturns : exists status w',
    compress_videos_from_dir Frame check_if_valid_video video_compressor
      os_path_isdir os_walk dir_path force_overwrite crf_parameter
      output_video_codec out_dir_path out_file_name w = (Return status, w')).
  { unfold compress_videos_from_dir, validate_dir_path. rewrite Hdir.
    rewrite bind_log. cbn [files].
    apply compress_each_total; [exact Hcontract|].
    intros video Hin. split; [apply Hexist; exact Hin|].
    eapply videos_of_walk_valid. exact Hin. }
  destruct Hreturns as (status & w' & Hrun).
  destruct (compress_dir_returns _ _ _ _ _ _ _ _ _ _ _ _ _ _ Hrun)
    as (statuses & Hlen & Hcalls & ->).
  exists statuses, w'. repeat split; assumption.
Qed.

(** * Instances

    The statements above at concrete inputs, and the inputs at which the
    specification's wording and the code part ways. *)

Lemma on_disk (path : string) (disk : gset string) :
  bool_decide (path ∈ disk) = true -> path ∈ disk.
Proof. apply bool_decide_eq_true_1. Qed.

Lemma not_on_disk (path : string) (disk : gset string) :
  bool_decide (path ∈ disk) = false -> path ∉ disk.
Proof. apply bool_decide_eq_false_1. Qed.

Lemma in_list (x : string) (l : list string) :
  bool_decide (x ∈ l) = true -> x ∈ l.
Proof. apply bool_decide_eq_true_1. Qed.

(** Against C1 as worded.  The specification has the clips deleted when
    the extraction fails:
    with an extractor that raises on the second of four clips, the call
    fails and the first clip, written by the call, is still on disk. *)
Lemma extraction_failure_clips_not_deleted :
  let run :=
    extract_video_keyframes nat 4 5 "/work/clipped" demo_valid demo_info
      demo_cut demo_extract_failing demo_select 3 "/videos/a.mp4" demo_world in
  fst run = Raise CollaboratorError
  /\ ("/work/clipped/a_0_22000.mp4" ∉ files demo_world)
  /\ ("/work/clipped/a_0_22000.mp4" ∈ files (snd run))
  /\ ~ (forall clip : string,
          clip ∈ map (clip_of "/work/clipped" "/videos/a.mp4")
                   (split_windows 4 5 (9050 # 100)) ->
          clip ∉ files (snd run)).
Proof.
  cbv zeta.
  assert (Hin : "/work/clipped/a_0_22000.mp4"
                ∈ files (snd (extract_video_keyframes nat 4 5 "/work/clipped"
                     demo_valid demo_info demo_cut demo_extract_failing
                     demo_select 3 "/videos/a.mp4" demo_world))).
  { apply on_disk. vm_compute. reflexivity. }
  split; [vm_compute; reflexivity|].
  split; [apply not_on_disk; vm_compute; reflexivity|].
  split; [exact Hin|].
  intros H. apply (H "/work/clipped/a_0_22000.mp4"); [|exact Hin].
  apply in_list. vm_compute. reflexivity.
Qed.

Lemma extraction_failure_keeps_clips_witness :
  ("/videos/a.mp4" ∈ files demo_world)
  /\ demo_valid "/videos/a.mp4" = true
  /\ demo_info "/videos/a.mp4" = Return two_durations
  /\ duration_of_infos two_durations = Return (9050 # 100)
  /\ forallb (cut_succeeds "/work/clipped" demo_cut "/videos/a.mp4")
       (split_windows 4 5 (9050 # 100)) = true
  /\ forallb (extraction_returns nat demo_extract_failing)
       (map (clip_of "/work/clipped" "/videos/a.mp4")
          (split_windows 4 5 (9050 # 100))) = false
  /\ exists w',
       extract_video_keyframes nat 4 5 "/work/clipped" demo_valid demo_info
         demo_cut demo_extract_failing demo_select 3 "/videos/a.mp4"
         demo_world = (Raise CollaboratorError, w')
       /\ files w'
          = files demo_world
            ∪ list_to_set (map (clip_of "/work/clipped" "/videos/a.mp4")
                             (split_windows 4 5 (9050 # 100))).
Proof.
  assert (H1 : "/videos/a.mp4" ∈ files demo_world)
    by (apply on_disk; vm_compute; reflexivity).
  assert (H2 : demo_valid "/videos/a.mp4" = true) by reflexivity.
  assert (H3 : demo_info "/videos/a.mp4" = Return two_durations)
    by reflexivity.
  assert (H4 : duration_of_infos two_durations = Return (9050 # 100))
    by (vm_compute; reflexivity).
  assert (H5 : forallb (cut_succeeds "/work/clipped" demo_cut "/videos/a.mp4")
                 (split_windows 4 5 (9050 # 100)) = true)
    by (vm_compute; reflexivity).
  assert (H6 : forallb (extraction_returns nat demo_extract_failing)
                 (map (clip_of "/work/clipped" "/videos/a.mp4")
                    (split_windows 4 5 (9050 # 100))) = false)
    by (vm_compute; reflexivity).
  repeat (split; [assumption|]).
  destruct (extraction_failure_keeps_clips nat 4 5 "/work/clipped" demo_valid
              demo_info demo_cut demo_extract_failing demo_select 3
              "/videos/a.mp4" two_durations (9050 # 100) demo_world
              H1 H2 H3 H4 H5 H6)
    as (e & w' & Hrun & (clip & _ & He) & Hfiles & _).
  assert (e = CollaboratorError) as ->.
  { unfold demo_extract_failing in He.
    destruct (String.eqb clip "/work/clipped/a_22000_44000.mp4");
      congruence. }
  exists w'. split; assumption.
Defined.

(** The run of the counterexample above, in full: the pool has one worker
    and the four clips make four batches, so every clip is handed to the
    extractor although the second one raises; and in a batch of two, the
    clip that follows a raising one is not run. *)
Lemma extraction_failure_runs_every_batch :
  let run :=
    extract_video_keyframes nat 4 5 "/work/clipped" demo_valid demo_info
      demo_cut demo_extract_failing demo_select 3 "/videos/a.mp4" demo_world in
  flat_map (fun ev => match ev with EvExtract clip => [clip] | _ => [] end)
    (calls (snd run))
  = ["/work/clipped/a_0_22000.mp4"; "/work/clipped/a_22000_44000.mp4";
     "/work/clipped/a_44000_66000.mp4"; "/work/clipped/a_66000_90500.mp4"]
  /\ calls (snd (run_batches nat demo_extract_failing 2 0 false
                   ["/work/clipped/a_22000_44000.mp4";
                    "/work/clipped/a_44000_66000.mp4";
                    "/work/clipped/a_66000_90500.mp4"] demo_world))
     = [EvExtract "/work/clipped/a_22000_44000.mp4";
        EvExtract "/work/clipped/a_66000_90500.mp4"].
Proof. split; vm_compute; reflexivity. Qed.

Lemma extraction_barrier_witness :
  ("/videos/a.mp4" ∈ files demo_world)
  /\ demo_valid "/videos/a.mp4" = true
  /\ demo_info "/videos/a.mp4" = Return two_durations
  /\ duration_of_infos two_durations = Return (9050 # 100)
  /\ forallb (cut_succeeds "/work/clipped" demo_cut "/videos/a.mp4")
       (split_windows 4 5 (9050 # 100)) = true
  /\ forallb (extraction_returns nat demo_extract)
       (map (clip_of "/work/clipped" "/videos/a.mp4")
          (split_windows 4 5 (9050 # 100))) = true
  /\ exists w',
       extract_video_keyframes nat 4 5 "/work/clipped" demo_valid demo_info
         demo_cut demo_extract demo_select 3 "/videos/a.mp4" demo_world
       = (demo_select
            (concat (map (frames_of nat demo_extract)
                       (map (clip_of "/work/clipped" "/videos/a.mp4")
                          (split_windows 4 5 (9050 # 100))))) 3, w')
       /\ forall clip : string,
            clip ∈ map (clip_of "/work/clipped" "/videos/a.mp4")
                     (split_windows 4 5 (9050 # 100)) ->
            clip ∉ files w'.
Proof.
  assert (H1 : "/videos/a.mp4" ∈ files demo_world)
    by (apply on_disk; vm_compute; reflexivity).
  assert (H2 : demo_valid "/videos/a.mp4" = true) by reflexivity.
  assert (H3 : demo_info "/videos/a.mp4" = Return two_durations)
    by reflexivity.
  assert (H4 : duration_of_infos two_durations = Return (9050 # 100))
    by (vm_compute; reflexivity).
  assert (H5 : forallb (cut_succeeds "/work/clipped" demo_cut "/videos/a.mp4")
                 (split_windows 4 5 (9050 # 100)) = true)
    by (vm_compute; reflexivity).
  assert (H6 : forallb (extraction_returns nat demo_extract)
                 (map (clip_of "/work/clipped" "/videos/a.mp4")
                    (split_windows 4 5 (9050 # 100))) = true)
    by (vm_compute; reflexivity).
  repeat (split; [assumption|]).
  destruct (extraction_barrier nat 4 5 "/work/clipped" demo_valid demo_info
              demo_cut demo_extract demo_select 3 "/videos/a.mp4"
              two_durations (9050 # 100) demo_world H1 H2 H3 H4 H5 H6)
    as (w' & Hrun & _ & _ & Hgone & _).
  exists w'. split; assumption.
Defined.

Lemma pool_sizes_witness :
  ("/videos/a.mp4" ∈ files demo_world)
  /\ n_processes 4 = Some 1%Z
  /\ n_processes 3 = None
  /\ exists rest,
       calls (snd (extract_video_keyframes nat 4 5 "/work/clipped" demo_valid
                     demo_info demo_cut demo_extract demo_select 3
                     "/videos/a.mp4" demo_world))
       = calls demo_world
         ++ EvPool PoolExtractor (n_processes 4)
            :: EvPool PoolSelector (n_processes 4) :: rest.
Proof.
  assert (H1 : "/videos/a.mp4" ∈ files demo_world)
    by (apply on_disk; vm_compute; reflexivity).
  split; [exact H1|]. split; [reflexivity|]. split; [reflexivity|].
  exact (proj2 (pool_sizes nat 4 5 "/work/clipped" demo_valid demo_info
                  demo_cut demo_extract demo_select 3 "/videos/a.mp4"
                  demo_world H1)).
Defined.

(** Against C2 as worded.  The specification takes the larger of 25 and
    the share: on five
    execution units a video of 100 seconds has a share of 20 seconds, and
    the break point is 20, not 25. *)
Lemma break_point_not_max :
  break_point 5 100 = 20
  /\ spec_break_point 5 100 == 25
  /\ ~ (break_point 5 100 == spec_break_point 5 100)
  /\ split_windows 5 5 100 = [(0, 20); (20, 40); (40, 60); (60, 80); (80, 100)].
Proof.
  split; [reflexivity|]. split; [reflexivity|].
  split; [|reflexivity]. vm_compute. discriminate.
Qed.

(** Against C3 as worded.  The specification wants one window over the
    whole video for a duration within one break point, zero included: at zero the loop is not entered
    and the plan is empty. *)
Lemma split_windows_zero_duration :
  0 <= 0
  /\ 0 <= break_point 4 0
  /\ split_windows 4 5 0 = []
  /\ ~ (exists e, split_windows 4 5 0 = [(0, e)]).
Proof.
  split; [discriminate|]. split; [discriminate|]. split; [reflexivity|].
  intros [e H]. discriminate H.
Qed.

Lemma split_windows_partition_witness :
  0 < 100
  /\ let ws := split_windows 4 5 100 in
     (exists e rest, ws = (0, e) :: rest)
     /\ (exists s e, last ws = Some (s, e) /\ e == 100
           /\ ((1 < length ws)%nat -> 5 <= e - s))
     /\ (forall (i : nat) a b,
           ws !! i = Some a -> ws !! S i = Some b -> snd a = fst b)
     /\ (forall (i j : nat) a b,
           (i < j)%nat -> ws !! i = Some a -> ws !! j = Some b ->
           snd a <= fst b)
     /\ Forall (fun w => 0 <= fst w /\ fst w < snd w /\ snd w <= 100) ws
     /\ (100 <= break_point 4 100 -> exists e, ws = [(0, e)] /\ e == 100).
Proof.
  split; [reflexivity|].
  exact (split_windows_partition 4 5 100 eq_refl).
Defined.

Lemma duration_last_line_first_match_witness :
  splitlines two_durations
  = ["Input #0, mov,mp4, from 'a.mp4':";
     "  Duration: 00:00:10.00, start: 0.000000, bitrate: 512 kb/s";
     "Output #0, null, to 'pipe:':"]
    ++ "  Duration: 00:01:30.50, start: 0.000000, bitrate: 128 kb/s"
       :: ["video:0kB audio:0kB"]
  /\ last (splitlines two_durations) = Some "video:0kB audio:0kB"
  /\ str_in "No such file or directory" "video:0kB audio:0kB" = false
  /\ str_in "Duration:"
       "  Duration: 00:01:30.50, start: 0.000000, bitrate: 128 kb/s" = true
  /\ forallb (fun l' => negb (str_in "Duration:" l'))
       ["video:0kB audio:0kB"] = true
  /\ "  Duration: 00:01:30.50, start: 0.000000, bitrate: 128 kb/s"
     = ("  Duration: " ++ timestamp "0" "0" "0" "1" "3" "0" "." "5" "0"
          ++ ", start: 0.000000, bitrate: 128 kb/s")%string
  /\ timestamp_chars "0" "0" "0" "1" "3" "0" "." "5" "0" = true
  /\ no_match_before "  Duration: "
       (timestamp "0" "0" "0" "1" "3" "0" "." "5" "0"
          ++ ", start: 0.000000, bitrate: 128 kb/s") = true
  /\ head (findall
             "  Duration: 00:01:30.50, start: 0.000000, bitrate: 128 kb/s")
     = Some "00:01:30.50"
  /\ duration_of_infos two_durations
     = Return (two_digits "0" "0" * 3600 + two_digits "0" "1" * 60
               + two_digits "3" "0" + two_digits "5" "0" / 100).
Proof.
  repeat (split; [reflexivity|]).
  pose proof (duration_last_line_first_match two_durations
    ["Input #0, mov,mp4, from 'a.mp4':";
     "  Duration: 00:00:10.00, start: 0.000000, bitrate: 512 kb/s";
     "Output #0, null, to 'pipe:':"]
    ["video:0kB audio:0kB"]
    "  Duration: 00:01:30.50, start: 0.000000, bitrate: 128 kb/s"
    "video:0kB audio:0kB" "  Duration: "
    ", start: 0.000000, bitrate: 128 kb/s"
    "0" "0" "0" "1" "3" "0" "." "5" "0"
    eq_refl eq_refl eq_refl eq_refl eq_refl eq_refl eq_refl eq_refl)
    as (_ & _ & _ & Hvalue & _).
  exact (Hvalue eq_refl).
Defined.

(** Against C4 as worded.  The specification has the first [HH:MM:SS.ss]
    timestamp of the line read.  On a duration line where the pattern
    matches earlier with another character before the hundredths, the
    code reads that match: the timestamp [00:01:30.50] is the first of
    the line, the first match is [12:34:56x78], and the duration is not
    90.5 seconds. *)
Lemma duration_first_match_not_timestamp :
  splitlines duration_after_junk = [duration_after_junk]
  /\ str_in "Duration:" duration_after_junk = true
  /\ spec_first_timestamp duration_after_junk = Some "00:01:30.50"
  /\ findall duration_after_junk = ["12:34:56x78"; "00:01:30.50"]
  /\ head (findall duration_after_junk)
     <> spec_first_timestamp duration_after_junk
  /\ ~ (exists seconds,
          duration_of_infos duration_after_junk = Return seconds
          /\ seconds == 90.5).
Proof.
  split; [reflexivity|]. split; [reflexivity|]. split; [reflexivity|].
  split; [reflexivity|]. split; [vm_compute; discriminate|].
  intros (seconds & Hrun & Heq).
  assert (Hcode : duration_of_infos duration_after_junk
                  = Return (12 * 3600 + 34 * 60 + 56 + 78 / 100))
    by reflexivity.
  rewrite Hcode in Hrun. injection Hrun as <-.
  vm_compute in Heq. discriminate.
Qed.

(** Against C7 as worded.  The specification rounds the millisecond
    offsets.  On the last window of a video of 64.02 seconds cut in four,
    the float product [1000 * 64.02] lies just below 64020 and the clip
    is named with 64019, where rounding gives 64020; and a window that
    starts at 3/32 of a second, exactly 93.75 milliseconds, has its clip
    named with 93, where rounding gives 94. *)
Lemma clip_name_not_rounded :
  split_windows 4 5 (6402 # 100) = [(0, 16); (16, 32); (32, 48); (48, 6402 # 100)]
  /\ float_clipped_file_path "/work/clipped" "/videos/a.mp4" 48 64.02
     = Some "/work/clipped/a_48000_64019.mp4"
  /\ spec_clip_name "/work/clipped" "/videos/a.mp4" 48 64.02
     = Some "/work/clipped/a_48000_64020.mp4"
  /\ float_clipped_file_path "/work/clipped" "/videos/a.mp4" 0.09375 1
     = Some "/work/clipped/a_93_1000.mp4"
  /\ spec_clip_name "/work/clipped" "/videos/a.mp4" 0.09375 1
     = Some "/work/clipped/a_94_1000.mp4"
  /\ (exists start_ms,
        float_value (1000 * 0.09375)%float = Some start_ms
        /\ start_ms == 93.75)
  /\ float_clipped_file_path "/work/clipped" "/videos/a.mp4" 48 64.02
     <> spec_clip_name "/work/clipped" "/videos/a.mp4" 48 64.02.
Proof.
  split; [vm_compute; reflexivity|].
  split; [vm_compute; reflexivity|]. split; [vm_compute; reflexivity|].
  split; [vm_compute; reflexivity|]. split; [vm_compute; reflexivity|].
  split; [eexists; split; [vm_compute; reflexivity | reflexivity]|].
  vm_compute. discriminate.
Qed.

Lemma clip_name_truncates_witness :
  "/work/clipped" <> EmptyString
  /\ ends_with_slash "/work/clipped" = false
  /\ float_value (1000 * 48)%float
     = Some (6597069766656000 # 137438953472)
  /\ float_value (1000 * 64.02)%float
     = Some (8798841801277439 # 137438953472)
  /\ (6597069766656000 # 137438953472) == 48000
  /\ py_int (8798841801277439 # 137438953472) = 64019%Z
  /\ float_clipped_file_path "/work/clipped" "/videos/a.mp4" 48 64.02
     = Some "/work/clipped/a_48000_64019.mp4".
Proof.
  assert (H1 : "/work/clipped" <> EmptyString) by discriminate.
  assert (H2 : float_value (1000 * 48)%float
               = Some (6597069766656000 # 137438953472))
    by (vm_compute; reflexivity).
  assert (H3 : float_value (1000 * 64.02)%float
               = Some (8798841801277439 # 137438953472))
    by (vm_compute; reflexivity).
  split; [exact H1|]. split; [reflexivity|]. split; [exact H2|].
  split; [exact H3|]. split; [reflexivity|]. split; [vm_compute; reflexivity|].
  exact (proj1 (clip_name_truncates "/work/clipped" "/videos/a.mp4" 48 64.02
                  _ _ H1 eq_refl H2 H3)).
Defined.

Lemma compress_dir_no_short_circuit_witness :
  demo_isdir (files demo_world) "/videos" = true
  /\ (forall args disk, exists b disk',
        demo_compressor args disk = (Return b, disk') /\ disk ⊆ disk')
  /\ (forall video,
        In video (videos_of_walk demo_valid
                    (demo_walk (files demo_world) "/videos")) ->
        video ∈ files demo_world)
  /\ videos_of_walk demo_valid (demo_walk (files demo_world) "/videos")
     = ["/videos/a.mp4"; "/videos/b.mp4"; "/videos/old/c.mp4"]
  /\ exists statuses w',
       compress_videos_from_dir nat demo_valid demo_compressor demo_isdir
         demo_walk "/videos" false 23 "libx264" "/out" "" demo_world
       = (Return (forallb id statuses), w')
       /\ length statuses = 3%nat.
Proof.
  assert (H1 : demo_isdir (files demo_world) "/videos" = true) by reflexivity.
  assert (H2 : forall args disk, exists b disk',
             demo_compressor args disk = (Return b, disk') /\ disk ⊆ disk').
  { intros args disk. eexists. exists disk. split; reflexivity. }
  assert (H3 : forall video,
             In video (videos_of_walk demo_valid
                         (demo_walk (files demo_world) "/videos")) ->
             video ∈ files demo_world).
  { intros video [<- | [<- | [<- | []]]];
      apply on_disk; vm_compute; reflexivity. }
  split; [exact H1|]. split; [exact H2|]. split; [exact H3|].
  split; [reflexivity|].
  destruct (proj1 (compress_dir_no_short_circuit nat demo_valid
                     demo_compressor demo_isdir demo_walk "/videos" false 23
                     "libx264" "/out" "" demo_world H1 H2 H3))
    as (statuses & w' & Hrun & Hlen & _).
  exists statuses, w'. split; assumption.
Defined.

(** ** Instances of the further properties *)

Lemma cut_failure_leaves_earlier_clips_witness :
  ("/videos/a.mp4" ∈ files demo_world)
  /\ demo_valid "/videos/a.mp4" = true
  /\ demo_info "/videos/a.mp4" = Return two_durations
  /\ duration_of_infos two_durations = Return (9050 # 100)
  /\ split_windows 4 5 (9050 # 100)
     = [(0, 22); (22, 44)] ++ (44, 66) :: [(66, 9050 # 100)]
  /\ forallb (cut_succeeds "/work/clipped" demo_cut_failing "/videos/a.mp4")
       [(0, 22); (22, 44)] = true
  /\ cut_succeeds "/work/clipped" demo_cut_failing "/videos/a.mp4" (44, 66)
     = false
  /\ extract_video_keyframes nat 4 5 "/work/clipped" demo_valid demo_info
       demo_cut_failing demo_extract demo_select 3 "/videos/a.mp4" demo_world
     = (Raise ExternalToolError,
        {| files := files demo_world
                    ∪ list_to_set
                        (map (clip_of "/work/clipped" "/videos/a.mp4")
                           [(0, 22); (22, 44)]);
           calls := calls demo_world
                    ++ [EvPool PoolExtractor (n_processes 4);
                        EvPool PoolSelector (n_processes 4);
                        EvProbe "/videos/a.mp4"]
                    ++ map (cut_of nat "/work/clipped" "/videos/a.mp4")
                         [(0, 22); (22, 44)]
                    ++ [cut_of nat "/work/clipped" "/videos/a.mp4" (44, 66)]
        |}).
Proof.
  assert (H1 : "/videos/a.mp4" ∈ files demo_world)
    by (apply on_disk; vm_compute; reflexivity).
  assert (H4 : duration_of_infos two_durations = Return (9050 # 100))
    by (vm_compute; reflexivity).
  assert (H5 : split_windows 4 5 (9050 # 100)
               = [(0, 22); (22, 44)] ++ (44, 66) :: [(66, 9050 # 100)])
    by reflexivity.
  split; [exact H1|]. split; [reflexivity|]. split; [reflexivity|].
  split; [exact H4|]. split; [exact H5|].
  split; [reflexivity|]. split; [reflexivity|].
  exact (cut_failure_leaves_earlier_clips nat 4 5 "/work/clipped" demo_valid
           demo_info demo_cut_failing demo_extract demo_select 3
           "/videos/a.mp4" two_durations (9050 # 100) [(0, 22); (22, 44)]
           [(66, 9050 # 100)] (44, 66) demo_world
           H1 eq_refl eq_refl H4 H5 eq_refl eq_refl).
Defined.

Lemma extract_fails_before_cutting_witness :
  ("/videos/notes.txt" ∈ files demo_world)
  /\ demo_valid "/videos/notes.txt" = false
  /\ extract_video_keyframes nat 4 5 "/work/clipped" demo_valid demo_info
       demo_cut demo_extract demo_select 3 "/videos/notes.txt" demo_world
     = (Raise InvalidVideo,
        {| files := files demo_world;
           calls := calls demo_world
                    ++ [EvPool PoolExtractor (n_processes 4);
                        EvPool PoolSelector (n_processes 4)] |}).
Proof.
  assert (H1 : "/videos/notes.txt" ∈ files demo_world)
    by (apply on_disk; vm_compute; reflexivity).
  split; [exact H1|]. split; [reflexivity|].
  exact (proj1 (extract_fails_before_cutting nat 4 5 "/work/clipped"
                  demo_valid demo_info demo_cut demo_extract demo_select 3
                  "/videos/notes.txt" demo_world H1) eq_refl).
Defined.

Lemma compress_dir_aborts_witness :
  demo_isdir (files demo_world) "/videos" = true
  /\ compress_videos_from_dir nat demo_valid demo_compressor_raising
       demo_isdir demo_walk "/videos" false 23 "libx264" "/out" ""
       demo_world
     = (Raise CollaboratorError,
        {| files := files demo_world;
           calls :=
             [EvWalk "/videos";
              EvCompress (dir_args false 23 "libx264" "/out" "/videos/a.mp4")
                (Return true);
              EvCompress (dir_args false 23 "libx264" "/out" "/videos/b.mp4")
                (Raise CollaboratorError)] |})
  /\ exists n (statuses : list bool) (tail_ : list (Event nat)),
       (n < 3)%nat /\ length statuses = n
       /\ (tail_ = [] \/ exists video : string, tail_
             = [EvCompress (dir_args false 23 "libx264" "/out" video)
                  (Raise CollaboratorError)]).
Proof.
  assert (H1 : demo_isdir (files demo_world) "/videos" = true) by reflexivity.
  assert (Hrun :
    compress_videos_from_dir nat demo_valid demo_compressor_raising
      demo_isdir demo_walk "/videos" false 23 "libx264" "/out" ""
      demo_world
    = (Raise CollaboratorError,
       {| files := files demo_world;
          calls :=
            [EvWalk "/videos";
             EvCompress (dir_args false 23 "libx264" "/out" "/videos/a.mp4")
               (Return true);
             EvCompress (dir_args false 23 "libx264" "/out" "/videos/b.mp4")
               (Raise CollaboratorError)] |}))
    by (vm_compute; reflexivity).
  split; [exact H1|]. split; [exact Hrun|].
  destruct (compress_dir_aborts nat demo_valid demo_compressor_raising
              demo_isdir demo_walk "/videos" false 23 "libx264" "/out" ""
              demo_world _ CollaboratorError H1 Hrun)
    as (n & statuses & tail_ & Hn & Hlen & _ & Htail).
  exists n, statuses, tail_. split; [exact Hn|]. split; [exact Hlen|].
  destruct Htail as [-> | (video & _ & ->)]; [now left|].
  right. now exists video.
Defined.

Lemma extract_dir_keys_witness :
  exists d w',
    extract_keyframes_from_videos_dir nat 4 5 "/work/clipped" demo_valid
      demo_info demo_cut demo_extract demo_select demo_isdir demo_walk 3
      "/videos" demo_world
    = (Return d, w')
    /\ dom d
       = list_to_set ["/videos/a.mp4"; "/videos/b.mp4"; "/videos/old/c.mp4"].
Proof.
  destruct (extract_keyframes_from_videos_dir nat 4 5 "/work/clipped"
              demo_valid demo_info demo_cut demo_extract demo_select
              demo_isdir demo_walk 3 "/videos" demo_world)
    as [[d|e] w'] eqn:Hrun.
  - exists d, w'. split; [reflexivity|].
    exact (proj1 (extract_dir_keys nat 4 5 "/work/clipped" demo_valid
                    demo_info demo_cut demo_extract demo_select demo_isdir
                    demo_walk 3 "/videos" demo_world w' d Hrun)).
  - exfalso. vm_compute in Hrun. discriminate Hrun.
Defined.

